(** * The processing session of [octopus/pipeline.py]

    A shallow embedding of the orchestrator ([ProcessingSession]) and of the
    worker entry point ([process_batch]).  The session object is a record,
    every method is a function on the state, and every coroutine is cut at
    its suspension points ([await]) into the segments the event loop runs
    without interruption. *)

From stdpp Require Import gmap strings list sorting pretty.
From Stdlib Require Import ZArith Ascii.

Local Open Scope string_scope.
Local Open Scope list_scope.
Local Open Scope Z_scope.

(** ** Python strings (restricted to ASCII text) *)

Module PyStr.

Definition nl : string := String (ascii_of_nat 10) EmptyString.

Definition lower_ascii (c : ascii) : ascii :=
  let n := nat_of_ascii c in
  if ((65 <=? n) && (n <=? 90))%nat then ascii_of_nat (n + 32) else c.

(** [str.lower()] *)
Fixpoint lower (s : string) : string :=
  match s with
  | EmptyString => EmptyString
  | String c r => String (lower_ascii c) (lower r)
  end.

(** [str.startswith(prefix)] *)
Fixpoint startswith (s p : string) : bool :=
  match p, s with
  | EmptyString, _ => true
  | String _ _, EmptyString => false
  | String a p', String b s' => if Ascii.eqb a b then startswith s' p' else false
  end.

Fixpoint drop (n : nat) (s : string) : string :=
  match n, s with
  | O, _ => s
  | S _, EmptyString => EmptyString
  | S k, String _ r => drop k r
  end.

(** [str.endswith(suffix)] *)
Definition endswith (s p : string) : bool :=
  (String.length p <=? String.length s)%nat
  && String.eqb (drop (String.length s - String.length p) s) p.

(** [os.path.commonprefix([a, b])]: the longest common leading substring,
    compared character by character. *)
Fixpoint commonprefix (a b : string) : string :=
  match a, b with
  | String x a', String y b' =>
      if Ascii.eqb x y then String x (commonprefix a' b') else EmptyString
  | _, _ => EmptyString
  end.

(** [os.path.join(a, b)] of [posixpath]. *)
Definition path_join (a b : string) : string :=
  if startswith b "/" then b
  else if String.eqb a EmptyString || endswith a "/" then a +:+ b
  else a +:+ "/" +:+ b.

(** The ASCII line boundaries of [str.splitlines()]. *)
Definition is_linebreak (c : ascii) : bool :=
  let n := nat_of_ascii c in
  ((n =? 10) || (n =? 11) || (n =? 12) || (n =? 13)
   || (n =? 28) || (n =? 29) || (n =? 30))%nat.

Fixpoint splitlines_from (cur : string) (s : string) : list string :=
  match s with
  | EmptyString => if String.eqb cur EmptyString then [] else [cur]
  | String c r =>
      if (nat_of_ascii c =? 13)%nat then
        match r with
        | String d r' =>
            if (nat_of_ascii d =? 10)%nat then cur :: splitlines_from EmptyString r'
            else cur :: splitlines_from EmptyString r
        | EmptyString => [cur]
        end
      else if is_linebreak c then cur :: splitlines_from EmptyString r
      else splitlines_from (cur +:+ String c EmptyString) r
  end.

(** [str.splitlines()] *)
Definition splitlines (s : string) : list string := splitlines_from EmptyString s.

End PyStr.

(** ** Configuration, results and exceptions *)

(** The keys of [config] the pipeline reads. *)
Record Config := mkConfig {
  cfg_inputdir : string;
  cfg_live : bool;
  cfg_quiet : bool;
  cfg_batch_chunk_size : Z;
  cfg_analysis_start_delay : Z;
  cfg_barcoding : bool;
  cfg_fastq_output : bool;
  cfg_fast5_output : bool;
  cfg_minimap2_index : option string;
  cfg_dump_adapter_signals : bool;
  cfg_dump_basecalls : bool
}.

(** A per-file result dictionary.  ['filename'] and ['status'] are present
    in every result; ['read_id'] and ['label'] are keys that may be absent. *)
Record Result := mkResult {
  filename : string;
  status : string;
  read_id : option string;
  label : option Z
}.

(** A raised instance of a subclass of [Exception], as far as the pipeline
    looks at it: [type(exc).__name__] and [str(exc)]. *)
Record Exc := mkExc {
  exc_type : string;
  exc_str : string
}.

(** The outcome of a call: a value is returned or an exception propagates. *)
Inductive PyResult (A : Type) : Type :=
| Return (a : A)
| Raise (e : Exc).
Arguments Return {A} a.
Arguments Raise {A} e.

#[global] Instance PyResult_ret : MRet PyResult := fun _ a => Return a.
#[global] Instance PyResult_bind : MBind PyResult := fun _ _ k m =>
  match m with
  | Return a => k a
  | Raise e => Raise e
  end.

(** What [process_batch] hands back: the result list, or the tuple
    [(-1, message, traceback)]. *)
Inductive BatchOutcome :=
| Results (rs : list Result)
| Sentinel (marker : Z) (message : string) (traceback : string).

(** ** The worker side: [process_batch] *)

(** The analyzer collaborator ([SignalAnalyzer], a context manager), with the
    analyzer object threaded as a value.  [an_exit] is [__exit__]; it is
    taken never to swallow an exception of the body. *)
Class SignalAnalyzer (A : Type) := {
  an_enter : Config -> Z -> PyResult A;
  an_process : A -> string -> A * PyResult Result;
  an_predict_barcode_labels : A -> PyResult (gmap string Z);
  an_exit : A -> PyResult unit
}.

Definition disappeared (f5file : string) : Result :=
  {| filename := f5file; status := "disappeared"; read_id := None; label := None |}.

(** [res['read_id']] on a dictionary without that key. *)
Definition KeyError_read_id : Exc :=
  {| exc_type := "KeyError"; exc_str := "'read_id'" |}.

Definition set_label (res : Result) (l : Z) : Result :=
  {| filename := filename res; status := status res;
     read_id := read_id res; label := Some l |}.

Section Worker.
Context {A : Type} `{SignalAnalyzer A}.
(** [os.path.exists] at analysis time, and the text [traceback.print_exc]
    writes for a caught exception. *)
Variable path_exists : string -> bool.
Variable print_exc : Exc -> string.

(** [process_file(inputfile, analyzer)] *)
Definition process_file (inputfile : string) (analyzer : A) : A * PyResult Result :=
  an_process analyzer inputfile.

(** The [for f5file in reads] loop.  Besides the analyzer and the results
    it returns the list of files handed to [process_file], in call order. *)
Fixpoint analyze_reads (inputdir : string) (analyzer : A) (calls : list string)
    (results : list Result) (reads : list string)
  : A * list string * PyResult (list Result) :=
  match reads with
  | [] => (analyzer, calls, Return results)
  | f5file :: rest =>
      if path_exists (PyStr.path_join inputdir f5file) then
        match process_file f5file analyzer with
        | (analyzer', Return r) =>
            analyze_reads inputdir analyzer' (calls ++ [f5file]) (results ++ [r]) rest
        | (analyzer', Raise e) => (analyzer', calls ++ [f5file], Raise e)
        end
      else
        analyze_reads inputdir analyzer calls (results ++ [disappeared f5file]) rest
  end.

(** The [for res in results] loop of the barcoding branch. *)
Fixpoint assign_labels (barcode_assg : gmap string Z) (results : list Result)
  : PyResult (list Result) :=
  match results with
  | [] => Return []
  | res :: rest =>
      match read_id res with
      | None => Raise KeyError_read_id
      | Some rid =>
          let res' := match barcode_assg !! rid with
                      | Some l => set_label res l
                      | None => res
                      end in
          rest' ← assign_labels barcode_assg rest; Return (res' :: rest')
      end
  end.

(** The body of the [with] statement. *)
Definition with_body (config : Config) (analyzer : A) (reads : list string)
  : A * list string * PyResult (list Result) :=
  match analyze_reads (cfg_inputdir config) analyzer [] [] reads with
  | (analyzer', calls, Return results) =>
      if cfg_barcoding config then
        (analyzer', calls,
         barcode_assg ← an_predict_barcode_labels analyzer';
         assign_labels barcode_assg results)
      else (analyzer', calls, Return results)
  | (analyzer', calls, Raise e) => (analyzer', calls, Raise e)
  end.

(** The [try] block: everything that can raise inside [process_batch]. *)
Definition process_batch_try (batchid : Z) (reads : list string) (config : Config)
  : list string * PyResult (list Result) :=
  match an_enter config batchid with
  | Raise e => ([], Raise e)
  | Return analyzer =>
      match with_body config analyzer reads with
      | (analyzer', calls, Return results) =>
          (calls, _ ← an_exit analyzer'; Return results)
      | (analyzer', calls, Raise e) =>
          (calls, _ ← an_exit analyzer'; Raise e)
      end
  end.

Definition unhandled_message (exc : Exc) : string :=
  "Unhandled exception " +:+ exc_type exc +:+ ": " +:+ exc_str exc.

(** [process_batch(batchid, reads, config)], with [except Exception]. *)
Definition process_batch (batchid : Z) (reads : list string) (config : Config)
  : PyResult BatchOutcome :=
  match snd (process_batch_try batchid reads config) with
  | Return results => Return (Results results)
  | Raise exc => Return (Sentinel (-1) (unhandled_message exc) (print_exc exc))
  end.

(** The files the analyzer was invoked on during the batch. *)
Definition analyzer_calls (batchid : Z) (reads : list string) (config : Config)
  : list string :=
  fst (process_batch_try batchid reads config).

End Worker.

(** ** The orchestrator state *)

(** What an [await] resumes with: the awaited value, a [CancelledError], or
    another exception. *)
Inductive Awaited (A : Type) : Type :=
| Got (a : A)
| Cancelled
| Raised (e : Exc).
Arguments Got {A} a.
Arguments Cancelled {A}.
Arguments Raised {A} e.

Definition is_BrokenProcessPool (e : Exc) : bool :=
  String.eqb (exc_type e) "BrokenProcessPool".

(** The attributes of a [ProcessingSession] that its methods update.
    [forced_flush_counter] is only created in live mode and only used
    there. *)
Record Session := mkSession {
  running : bool;
  scan_finished : bool;
  reads_queued : Z;
  reads_found : Z;
  reads_processed : Z;
  next_batch_id : Z;
  files_done : gset string;
  active_batches : Z;
  jobstack : list string;
  forced_flush_counter : Z
}.

(** The writer calls of [run_process_batch], each awaited on the I/O pool. *)
Inductive Writer := WFastq | WFast5Link | WAlignment | WSeqSummary.

(** Where a [run_process_batch] coroutine is suspended. *)
Inductive BatchPhase :=
| PhCreated
| PhSleeping
| PhComputing
| PhWriting (awaited : Writer) (later : list Writer) (nd_results : list Result)
| PhReturned.

(** The coroutines [run] and [flush_jobstack] hand to [loop.create_task]. *)
Inductive Coroutine :=
| CoMonitor (returned : bool)
| CoScan (returned : bool)
| CoLive (returned : bool)
| CoBatch (batchid : Z) (files : list string) (phase : BatchPhase).

Record Task := mkTask {
  coroutine : Coroutine;
  cancel_requests : nat
}.

(** The session together with the event loop and what was written out.
    [tasks] is [asyncio.Task.all_tasks()] in creation order; [err_output],
    [std_output] and [log_errors] are the texts given to [errprint], [print]
    and [logger.error]; [inventories] the inventory files created.
    The last five fields are history variables, not attributes of the
    program: the number of [queue_processing] calls, the number of
    occurrences cancelled as duplicates, the arguments of
    [files_done.add] in call order, the results appended to some
    [nd_results], and the number of times [self.running = False] ran. *)
Record State := mkState {
  sess : Session;
  tasks : list Task;
  loop_stop_calls : nat;
  err_output : list string;
  std_output : list string;
  log_errors : list string;
  inventories : list string;
  discovered : Z;
  duplicates_canceled : Z;
  done_adds : list string;
  accepted : list Result;
  running_cleared : nat
}.

Definition set_running (v : bool) (s : Session) : Session :=
  {| running := v; scan_finished := scan_finished s;
     reads_queued := reads_queued s; reads_found := reads_found s;
     reads_processed := reads_processed s; next_batch_id := next_batch_id s;
     files_done := files_done s; active_batches := active_batches s;
     jobstack := jobstack s; forced_flush_counter := forced_flush_counter s |}.

Definition set_scan_finished (v : bool) (s : Session) : Session :=
  {| running := running s; scan_finished := v;
     reads_queued := reads_queued s; reads_found := reads_found s;
     reads_processed := reads_processed s; next_batch_id := next_batch_id s;
     files_done := files_done s; active_batches := active_batches s;
     jobstack := jobstack s; forced_flush_counter := forced_flush_counter s |}.

Definition set_reads_queued (v : Z) (s : Session) : Session :=
  {| running := running s; scan_finished := scan_finished s;
     reads_queued := v; reads_found := reads_found s;
     reads_processed := reads_processed s; next_batch_id := next_batch_id s;
     files_done := files_done s; active_batches := active_batches s;
     jobstack := jobstack s; forced_flush_counter := forced_flush_counter s |}.

Definition set_reads_found (v : Z) (s : Session) : Session :=
  {| running := running s; scan_finished := scan_finished s;
     reads_queued := reads_queued s; reads_found := v;
     reads_processed := reads_processed s; next_batch_id := next_batch_id s;
     files_done := files_done s; active_batches := active_batches s;
     jobstack := jobstack s; forced_flush_counter := forced_flush_counter s |}.

Definition set_reads_processed (v : Z) (s : Session) : Session :=
  {| running := running s; scan_finished := scan_finished s;
     reads_queued := reads_queued s; reads_found := reads_found s;
     reads_processed := v; next_batch_id := next_batch_id s;
     files_done := files_done s; active_batches := active_batches s;
     jobstack := jobstack s; forced_flush_counter := forced_flush_counter s |}.

Definition set_next_batch_id (v : Z) (s : Session) : Session :=
  {| running := running s; scan_finished := scan_finished s;
     reads_queued := reads_queued s; reads_found := reads_found s;
     reads_processed := reads_processed s; next_batch_id := v;
     files_done := files_done s; active_batches := active_batches s;
     jobstack := jobstack s; forced_flush_counter := forced_flush_counter s |}.

Definition set_files_done (v : gset string) (s : Session) : Session :=
  {| running := running s; scan_finished := scan_finished s;
     reads_queued := reads_queued s; reads_found := reads_found s;
     reads_processed := reads_processed s; next_batch_id := next_batch_id s;
     files_done := v; active_batches := active_batches s;
     jobstack := jobstack s; forced_flush_counter := forced_flush_counter s |}.

Definition set_active_batches (v : Z) (s : Session) : Session :=
  {| running := running s; scan_finished := scan_finished s;
     reads_queued := reads_queued s; reads_found := reads_found s;
     reads_processed := reads_processed s; next_batch_id := next_batch_id s;
     files_done := files_done s; active_batches := v;
     jobstack := jobstack s; forced_flush_counter := forced_flush_counter s |}.

Definition set_jobstack (v : list string) (s : Session) : Session :=
  {| running := running s; scan_finished := scan_finished s;
     reads_queued := reads_queued s; reads_found := reads_found s;
     reads_processed := reads_processed s; next_batch_id := next_batch_id s;
     files_done := files_done s; active_batches := active_batches s;
     jobstack := v; forced_flush_counter := forced_flush_counter s |}.

Definition set_forced_flush_counter (v : Z) (s : Session) : Session :=
  {| running := running s; scan_finished := scan_finished s;
     reads_queued := reads_queued s; reads_found := reads_found s;
     reads_processed := reads_processed s; next_batch_id := next_batch_id s;
     files_done := files_done s; active_batches := active_batches s;
     jobstack := jobstack s; forced_flush_counter := v |}.

Definition set_sess (v : Session) (st : State) : State :=
  {| sess := v; tasks := tasks st; loop_stop_calls := loop_stop_calls st;
     err_output := err_output st; std_output := std_output st;
     log_errors := log_errors st; inventories := inventories st;
     discovered := discovered st;
     duplicates_canceled := duplicates_canceled st;
     done_adds := done_adds st; accepted := accepted st;
     running_cleared := running_cleared st |}.

Definition set_tasks (v : list Task) (st : State) : State :=
  {| sess := sess st; tasks := v; loop_stop_calls := loop_stop_calls st;
     err_output := err_output st; std_output := std_output st;
     log_errors := log_errors st; inventories := inventories st;
     discovered := discovered st;
     duplicates_canceled := duplicates_canceled st;
     done_adds := done_adds st; accepted := accepted st;
     running_cleared := running_cleared st |}.

Definition set_loop_stop_calls (v : nat) (st : State) : State :=
  {| sess := sess st; tasks := tasks st; loop_stop_calls := v;
     err_output := err_output st; std_output := std_output st;
     log_errors := log_errors st; inventories := inventories st;
     discovered := discovered st;
     duplicates_canceled := duplicates_canceled st;
     done_adds := done_adds st; accepted := accepted st;
     running_cleared := running_cleared st |}.

Definition set_err_output (v : list string) (st : State) : State :=
  {| sess := sess st; tasks := tasks st;
     loop_stop_calls := loop_stop_calls st; err_output := v;
     std_output := std_output st; log_errors := log_errors st;
     inventories := inventories st; discovered := discovered st;
     duplicates_canceled := duplicates_canceled st;
     done_adds := done_adds st; accepted := accepted st;
     running_cleared := running_cleared st |}.

Definition set_std_output (v : list string) (st : State) : State :=
  {| sess := sess st; tasks := tasks st;
     loop_stop_calls := loop_stop_calls st; err_output := err_output st;
     std_output := v; log_errors := log_errors st;
     inventories := inventories st; discovered := discovered st;
     duplicates_canceled := duplicates_canceled st;
     done_adds := done_adds st; accepted := accepted st;
     running_cleared := running_cleared st |}.

Definition set_log_errors (v : list string) (st : State) : State :=
  {| sess := sess st; tasks := tasks st;
     loop_stop_calls := loop_stop_calls st; err_output := err_output st;
     std_output := std_output st; log_errors := v;
     inventories := inventories st; discovered := discovered st;
     duplicates_canceled := duplicates_canceled st;
     done_adds := done_adds st; accepted := accepted st;
     running_cleared := running_cleared st |}.

Definition set_inventories (v : list string) (st : State) : State :=
  {| sess := sess st; tasks := tasks st;
     loop_stop_calls := loop_stop_calls st; err_output := err_output st;
     std_output := std_output st; log_errors := log_errors st;
     inventories := v; discovered := discovered st;
     duplicates_canceled := duplicates_canceled st;
     done_adds := done_adds st; accepted := accepted st;
     running_cleared := running_cleared st |}.

Definition set_discovered (v : Z) (st : State) : State :=
  {| sess := sess st; tasks := tasks st;
     loop_stop_calls := loop_stop_calls st; err_output := err_output st;
     std_output := std_output st; log_errors := log_errors st;
     inventories := inventories st; discovered := v;
     duplicates_canceled := duplicates_canceled st;
     done_adds := done_adds st; accepted := accepted st;
     running_cleared := running_cleared st |}.

Definition set_duplicates_canceled (v : Z) (st : State) : State :=
  {| sess := sess st; tasks := tasks st;
     loop_stop_calls := loop_stop_calls st; err_output := err_output st;
     std_output := std_output st; log_errors := log_errors st;
     inventories := inventories st; discovered := discovered st;
     duplicates_canceled := v; done_adds := done_adds st;
     accepted := accepted st; running_cleared := running_cleared st |}.

Definition set_done_adds (v : list string) (st : State) : State :=
  {| sess := sess st; tasks := tasks st;
     loop_stop_calls := loop_stop_calls st; err_output := err_output st;
     std_output := std_output st; log_errors := log_errors st;
     inventories := inventories st; discovered := discovered st;
     duplicates_canceled := duplicates_canceled st; done_adds := v;
     accepted := accepted st; running_cleared := running_cleared st |}.

Definition set_accepted (v : list Result) (st : State) : State :=
  {| sess := sess st; tasks := tasks st;
     loop_stop_calls := loop_stop_calls st; err_output := err_output st;
     std_output := std_output st; log_errors := log_errors st;
     inventories := inventories st; discovered := discovered st;
     duplicates_canceled := duplicates_canceled st;
     done_adds := done_adds st; accepted := v;
     running_cleared := running_cleared st |}.

Definition set_running_cleared (v : nat) (st : State) : State :=
  {| sess := sess st; tasks := tasks st;
     loop_stop_calls := loop_stop_calls st; err_output := err_output st;
     std_output := std_output st; log_errors := log_errors st;
     inventories := inventories st; discovered := discovered st;
     duplicates_canceled := duplicates_canceled st;
     done_adds := done_adds st; accepted := accepted st;
     running_cleared := v |}.

Definition upd_sess (f : Session -> Session) (st : State) : State :=
  set_sess (f (sess st)) st.

(** ** Methods of [ProcessingSession] *)

(** [__init__], followed by the three [create_task] calls of [run]. *)
Definition new_session : Session :=
  {| running := true; scan_finished := false; reads_queued := 0;
     reads_found := 0; reads_processed := 0; next_batch_id := 0;
     files_done := ∅; active_batches := 0; jobstack := [];
     forced_flush_counter := 0 |}.

Definition truthy (o : option string) : bool :=
  match o with
  | Some v => negb (String.eqb v EmptyString)
  | None => false
  end.

Definition errprint (message : string) (st : State) : State :=
  set_err_output (err_output st ++ [message]) st.

Definition show_message (config : Config) (message : string) (st : State) : State :=
  if cfg_quiet config then st else set_std_output (std_output st ++ [message]) st.

Definition logger_error (message : string) (st : State) : State :=
  set_log_errors (log_errors st ++ [message]) st.

Definition coroutine_done (c : Coroutine) : bool :=
  match c with
  | CoMonitor r | CoScan r | CoLive r => r
  | CoBatch _ _ PhReturned => true
  | CoBatch _ _ _ => false
  end.

(** [task.cancel()]: nothing happens to a task that is done. *)
Definition cancel (t : Task) : Task :=
  if coroutine_done (coroutine t) then t
  else {| coroutine := coroutine t; cancel_requests := S (cancel_requests t) |}.

Definition termination_notice : string :=
  PyStr.nl +:+ "Termination in process. Please wait for a moment.".

(** [stop(signalname)] *)
Definition stop (signalname : string) (st : State) : State :=
  let st1 :=
    if running (sess st) then
      set_running_cleared (S (running_cleared st))
        (upd_sess (set_running false) (errprint termination_notice st))
    else st in
  let st2 := set_tasks (map cancel (tasks st1)) st1 in
  set_loop_stop_calls (S (loop_stop_calls st2)) st2.

(** [errx(message)] *)
Definition errx (message : string) (st : State) : State :=
  if running (sess st) then stop "ERROR" (errprint message st) else st.

Definition create_task (c : Coroutine) (st : State) : State :=
  set_tasks (tasks st ++ [{| coroutine := c; cancel_requests := 0%nat |}]) st.

(** [flush_jobstack()] *)
Definition flush_jobstack (st : State) : State :=
  let s := sess st in
  if running s && negb (bool_decide (jobstack s = [])) then
    let batch_id := next_batch_id s in
    let files_to_submit := filter (λ filename, filename ∉ files_done s) (jobstack s) in
    let num_canceled :=
      Z.of_nat (length (jobstack s)) - Z.of_nat (length files_to_submit) in
    let s1 := set_next_batch_id (next_batch_id s + 1) s in
    let s2 :=
      if bool_decide (num_canceled = 0) then s1
      else set_reads_found (reads_found s1 - num_canceled)
             (set_reads_queued (reads_queued s1 - num_canceled) s1) in
    let s3 := set_jobstack [] s2 in
    let st1 :=
      set_duplicates_canceled (duplicates_canceled st + num_canceled)
        (set_sess s3 st) in
    if bool_decide (files_to_submit = []) then st1
    else create_task (CoBatch batch_id files_to_submit PhCreated) st1
  else st.

(** [queue_processing(filepath)] *)
Definition queue_processing (config : Config) (filepath : string) (st : State) : State :=
  let s := sess st in
  let s1 :=
    set_reads_found (reads_found s + 1)
      (set_reads_queued (reads_queued s + 1)
         (set_jobstack (jobstack s ++ [filepath]) s)) in
  let st1 := set_discovered (discovered st + 1) (set_sess s1 st) in
  if Z.of_nat (length (jobstack s1)) >=? cfg_batch_chunk_size config
  then flush_jobstack st1 else st1.

(** ** [run_process_batch], segment by segment *)

Definition enabled_writers (config : Config) : list Writer :=
  (if cfg_fastq_output config then [WFastq] else [])
  ++ (if cfg_fast5_output config then [WFast5Link] else [])
  ++ (if truthy (cfg_minimap2_index config) then [WAlignment] else [])
  ++ [WSeqSummary].

(** One round of the loop that removes duplicated results. *)
Definition dedup_result (acc : State * list Result) (result : Result)
  : State * list Result :=
  let '(st, nd_results) := acc in
  let s := sess st in
  if bool_decide (filename result ∉ files_done s) then
    let st1 :=
      if String.eqb (status result) "okay" then
        set_done_adds (done_adds st ++ [filename result])
          (upd_sess (set_files_done (files_done s ∪ {[ filename result ]})) st)
      else st in
    (set_accepted (accepted st1 ++ [result]) st1, nd_results ++ [result])
  else
    (set_duplicates_canceled (duplicates_canceled st + 1)
       (upd_sess (λ s, set_reads_found (reads_found s - 1)
                         (set_reads_queued (reads_queued s - 1) s)) st),
     nd_results).

Definition dedup_results (results : list Result) (st : State) : State * list Result :=
  foldl dedup_result (st, []) results.

Definition set_phase (batchid : Z) (ph : BatchPhase) (t : Task) : Task :=
  match coroutine t with
  | CoBatch b files _ =>
      if bool_decide (b = batchid)
      then {| coroutine := CoBatch b files ph; cancel_requests := cancel_requests t |}
      else t
  | _ => t
  end.

Definition batch_goto (batchid : Z) (ph : BatchPhase) (st : State) : State :=
  set_tasks (map (set_phase batchid ph) (tasks st)) st.

Fixpoint batch_lookup (batchid : Z) (ts : list Task) : option (list string * BatchPhase) :=
  match ts with
  | [] => None
  | t :: rest =>
      match coroutine t with
      | CoBatch b files ph =>
          if bool_decide (b = batchid) then Some (files, ph)
          else batch_lookup batchid rest
      | _ => batch_lookup batchid rest
      end
  end.

Definition batch_phase (batchid : Z) (st : State) : option BatchPhase :=
  snd <$> batch_lookup batchid (tasks st).

(** The [finally] clause. *)
Definition batch_finally (st : State) : State :=
  upd_sess (λ s, set_active_batches (active_batches s - 1) s) st.

(** The two statements after the [try] statement. *)
Definition batch_count (nd_results : list Result) (st : State) : State :=
  upd_sess (λ s,
    set_reads_queued (reads_queued s - Z.of_nat (length nd_results))
      (set_reads_processed (reads_processed s + Z.of_nat (length nd_results)) s)) st.

(** [except (CancelledError, BrokenProcessPool): return] *)
Definition batch_swallow (batchid : Z) (st : State) : State :=
  batch_goto batchid PhReturned (batch_finally st).

(** [except Exception as exc] *)
Definition batch_unhandled (batchid : Z) (exc : Exc) (st : State) : State :=
  batch_goto batchid PhReturned
    (batch_finally
       (errx ("ERROR: Unhandled error " +:+ exc_str exc)
          (logger_error "Unhandled error during processing reads" st))).

Definition batch_raised (batchid : Z) (exc : Exc) (st : State) : State :=
  if is_BrokenProcessPool exc then batch_swallow batchid st
  else batch_unhandled batchid exc st.

(** The branch taken for the tuple of an unhandled exception in the worker. *)
Definition batch_sentinel (batchid : Z) (error_message traceback : string)
    (st : State) : State :=
  let st1 := logger_error error_message st in
  let st2 := foldl (λ acc line, logger_error line acc) st1
               (PyStr.splitlines traceback) in
  let st3 := errx ("ERROR: " +:+ error_message) st2 in
  batch_goto batchid PhReturned (batch_finally st3).

(** Normal completion: [finally], then the counters. *)
Definition batch_complete (batchid : Z) (nd_results : list Result) (st : State) : State :=
  batch_goto batchid PhReturned (batch_count nd_results (batch_finally st)).

(** Subscripting the integer [results[0]] of a tuple that is not a
    sentinel. *)
Definition TypeError_subscript : Exc :=
  {| exc_type := "TypeError"; exc_str := "'int' object is not subscriptable" |}.

(** First scheduling of the coroutine, up to its first [await]. *)
Definition run_process_batch_begin (config : Config) (batchid : Z) (st : State) : State :=
  match batch_phase batchid st with
  | Some PhCreated =>
      if 0 <? cfg_analysis_start_delay config
      then batch_goto batchid PhSleeping st
      else batch_goto batchid PhComputing
             (upd_sess (λ s, set_active_batches (active_batches s + 1) s) st)
  | _ => st
  end.

(** Resumption from [asyncio.sleep]. *)
Definition run_process_batch_slept (batchid : Z) (r : Awaited unit) (st : State) : State :=
  match batch_phase batchid st with
  | Some PhSleeping =>
      match r with
      | Got _ =>
          batch_goto batchid PhComputing
            (upd_sess (λ s, set_active_batches (active_batches s + 1) s) st)
      | _ => batch_goto batchid PhReturned st
      end
  | _ => st
  end.

(** Resumption from the worker pool, down to the next [await] or the
    end. *)
Definition run_process_batch_computed (config : Config) (batchid : Z)
    (r : Awaited BatchOutcome) (st : State) : State :=
  match batch_phase batchid st with
  | Some PhComputing =>
      match r with
      | Got (Sentinel marker error_message traceback) =>
          if bool_decide (marker = -1)
          then batch_sentinel batchid error_message traceback st
          else batch_unhandled batchid TypeError_subscript st
      | Got (Results results) =>
          let '(st1, nd_results) := dedup_results results st in
          match nd_results, enabled_writers config with
          | _ :: _, w :: later => batch_goto batchid (PhWriting w later nd_results) st1
          | _, _ => batch_complete batchid nd_results st1
          end
      | Cancelled => batch_swallow batchid st
      | Raised exc => batch_raised batchid exc st
      end
  | _ => st
  end.

(** Resumption from a writer call; [feed] is the outcome of
    [finalsummary_tracker.feed_results], called after the last writer. *)
Definition run_process_batch_written (batchid : Z) (r : Awaited unit) (feed : PyResult unit)
    (st : State) : State :=
  match batch_phase batchid st with
  | Some (PhWriting _ later nd_results) =>
      match r with
      | Got _ =>
          match later with
          | w :: later' => batch_goto batchid (PhWriting w later' nd_results) st
          | [] =>
              match feed with
              | Return _ => batch_complete batchid nd_results st
              | Raise exc => batch_raised batchid exc st
              end
          end
      | Cancelled => batch_swallow batchid st
      | Raised exc => batch_raised batchid exc st
      end
  | _ => st
  end.

(** ** The scan, the live watch and the progress monitors *)

Definition FAST5_SUFFIX : string := ".fast5".

(** [inotify.constants] *)
Definition IN_CLOSE_WRITE : Z := 8.
Definition IN_MOVED_TO : Z := 128.

(** An event of [InotifyTree.event_gen()]:
    [(header, type_names, path, filename)], of the header only its mask. *)
Record InotifyEvent := mkInotifyEvent {
  ev_mask : Z;
  ev_type_names : list string;
  ev_path : string;
  ev_filename : string
}.

Inductive Kind := KMonitor | KScan | KLive.

Definition is_kind (k : Kind) (c : Coroutine) : bool :=
  match k, c with
  | KMonitor, CoMonitor _ | KScan, CoScan _ | KLive, CoLive _ => true
  | _, _ => false
  end.

(** Whether the coroutine of that kind is still to return. *)
Definition pending (k : Kind) (st : State) : bool :=
  existsb (λ t, is_kind k (coroutine t) && negb (coroutine_done (coroutine t)))
    (tasks st).

Definition return_task (k : Kind) (t : Task) : Task :=
  match k, coroutine t with
  | KMonitor, CoMonitor _ =>
      {| coroutine := CoMonitor true; cancel_requests := cancel_requests t |}
  | KScan, CoScan _ =>
      {| coroutine := CoScan true; cancel_requests := cancel_requests t |}
  | KLive, CoLive _ =>
      {| coroutine := CoLive true; cancel_requests := cancel_requests t |}
  | _, _ => t
  end.

Definition return_from (k : Kind) (st : State) : State :=
  set_tasks (map (return_task k) (tasks st)) st.

Section Session.
Variable config : Config.
(** The local [topdir] of [live_monitor_inputs] (an absolute path with a
    trailing slash) and the local [forcedflush] of
    [monitor_progresses_live] (computed in floating point from the
    start delay). *)
Variable topdir : string.
Variable forcedflush : Z.

(** [scan_dir_recursive]: resumption from the listing of [dirname], with
    the files the worker kept.  The error branch returns from this call
    only; the top-level call is the one with [dirname = ''] . *)
Definition scan_dir_recursive_listed (dirname : string) (r : Awaited (list string)) (st : State)
  : State :=
  if pending KScan st then
    match r with
    | Got files =>
        foldl (λ acc filename,
                 queue_processing config (PyStr.path_join dirname filename) acc)
          st files
    | Cancelled => return_from KScan st
    | Raised exc =>
        let st1 := errx ("ERROR: " +:+ exc_str exc) st in
        if String.eqb dirname EmptyString then return_from KScan st1 else st1
    end
  else st.

(** [scan_dir_recursive]: the end of the top-level call. *)
Definition scan_dir_recursive_end (st : State) : State :=
  if pending KScan st then
    return_from KScan (upd_sess (set_scan_finished true) (flush_jobstack st))
  else st.

Definition outside_message (path : string) : string :=
  "ERROR: Change of " +:+ path +:+ " detected, which is outside " +:+ topdir +:+ ".".

(** The test that selects the events [live_monitor_inputs] acts on. *)
Definition qualifying (ev : InotifyEvent) : bool :=
  negb (bool_decide ("IN_ISDIR" ∈ ev_type_names ev))
  && negb (Z.land (ev_mask ev) (Z.lor IN_CLOSE_WRITE IN_MOVED_TO) =? 0)
  && PyStr.endswith (PyStr.lower (ev_filename ev)) FAST5_SUFFIX.

(** The path a qualifying event inside the root is queued under. *)
Definition event_relpath (ev : InotifyEvent) : string :=
  let common := PyStr.commonprefix topdir (ev_path ev) in
  PyStr.path_join (PyStr.drop (String.length common) (ev_path ev)) (ev_filename ev).

(** One round of the loop of [live_monitor_inputs]. *)
Definition live_event (event : option InotifyEvent) (st : State) : State :=
  match event with
  | None => st
  | Some ev =>
      if bool_decide ("IN_ISDIR" ∈ ev_type_names ev) then st
      else if negb (Z.land (ev_mask ev) (Z.lor IN_CLOSE_WRITE IN_MOVED_TO) =? 0)
              && PyStr.endswith (PyStr.lower (ev_filename ev)) FAST5_SUFFIX then
        let common := PyStr.commonprefix topdir (ev_path ev) in
        if negb (String.eqb common topdir) then
          errprint (outside_message (ev_path ev)) st
        else
          let relpath :=
            PyStr.path_join (PyStr.drop (String.length common) (ev_path ev))
              (ev_filename ev) in
          if bool_decide (relpath ∉ files_done (sess st)) then
            queue_processing config relpath
              (upd_sess (set_forced_flush_counter 0) st)
          else st
      else st
  end.

(** [live_monitor_inputs]: resumption from [next(evgen)]. *)
Definition live_monitor_inputs (r : Awaited (option InotifyEvent)) (st : State)
  : State :=
  if pending KLive st then
    match r with
    | Got event => live_event event st
    | _ => return_from KLive st
    end
  else st.

(** [monitor_progresses]: resumption from the heartbeat sleep, to the next
    one.  The progress bar is left out. *)
Definition monitor_progresses (r : Awaited unit) (st : State) : State :=
  if pending KMonitor st then
    match r with
    | Got _ =>
        if (scan_finished (sess st) && (reads_queued (sess st) <=? 0))
           || negb (running (sess st))
        then return_from KMonitor st else st
    | _ => return_from KMonitor st
    end
  else st.

(** [monitor_progresses_live]: from the loop test to the heartbeat sleep.
    The status line is left out. *)
Definition monitor_progresses_live_head (st : State) : State :=
  if pending KMonitor st then
    if running (sess st) then
      if 0 <? reads_queued (sess st) then
        upd_sess (λ s, set_forced_flush_counter (forced_flush_counter s + 1) s) st
      else st
    else return_from KMonitor st
  else st.

(** [monitor_progresses_live]: from the heartbeat sleep to the loop test. *)
Definition monitor_progresses_live_wake (r : Awaited unit) (st : State) : State :=
  if pending KMonitor st then
    match r with
    | Got _ =>
        if (0 <? reads_queued (sess st))
           && (forcedflush <? forced_flush_counter (sess st)) then
          flush_jobstack (upd_sess (set_forced_flush_counter 0) st)
        else st
    | _ => return_from KMonitor st
    end
  else st.

(** ** [run] *)

Definition empty_state : State :=
  {| sess := new_session; tasks := []; loop_stop_calls := 0%nat;
     err_output := []; std_output := []; log_errors := []; inventories := [];
     discovered := 0; duplicates_canceled := 0; done_adds := [];
     accepted := []; running_cleared := 0%nat |}.

(** [run], from entering the session to the first [run_until_complete]. *)
Definition run_start : State :=
  let st1 :=
    if truthy (cfg_minimap2_index config)
    then show_message config "==> Loading a minimap2 index file" empty_state
    else empty_state in
  let st2 := show_message config "==> Processing FAST5 files" st1 in
  let st3 :=
    if negb (cfg_live config) || negb (cfg_quiet config)
    then create_task (CoMonitor false) st2 else st2 in
  let st4 := create_task (CoScan false) st3 in
  if cfg_live config then create_task (CoLive false) st4 else st4.

(** What the event loop can run next: a signal handler, or one coroutine
    from a suspension point to its next one. *)
Inductive Event :=
| EvSignal (signame : string)
| EvScanListed (dirname : string) (r : Awaited (list string))
| EvScanEnd
| EvInotify (r : Awaited (option InotifyEvent))
| EvMonitorWake (r : Awaited unit)
| EvLiveHead
| EvLiveWake (r : Awaited unit)
| EvBatchBegin (batchid : Z)
| EvBatchSlept (batchid : Z) (r : Awaited unit)
| EvBatchComputed (batchid : Z) (r : Awaited BatchOutcome)
| EvBatchWritten (batchid : Z) (r : Awaited unit) (feed : PyResult unit).

Definition step (st : State) (ev : Event) : State :=
  match ev with
  | EvSignal signame => stop signame st
  | EvScanListed dirname r => scan_dir_recursive_listed dirname r st
  | EvScanEnd => scan_dir_recursive_end st
  | EvInotify r => if cfg_live config then live_monitor_inputs r st else st
  | EvMonitorWake r => if cfg_live config then st else monitor_progresses r st
  | EvLiveHead => if cfg_live config then monitor_progresses_live_head st else st
  | EvLiveWake r => if cfg_live config then monitor_progresses_live_wake r st else st
  | EvBatchBegin batchid => run_process_batch_begin config batchid st
  | EvBatchSlept batchid r => run_process_batch_slept batchid r st
  | EvBatchComputed batchid r => run_process_batch_computed config batchid r st
  | EvBatchWritten batchid r feed => run_process_batch_written batchid r feed st
  end.

Definition run_events (evs : list Event) (st : State) : State := foldl step st evs.

(** The states the session can be in between two events. *)
Definition reachable (st : State) : Prop :=
  ∃ evs, st = run_events evs run_start.

Inductive Callback := print_results.

(** [finalize_results()] *)
Definition finalize_results (st : State) : State :=
  let st1 :=
    if cfg_dump_adapter_signals config then
      set_inventories (inventories st ++ ["adapter-dumps/inventory.h5"])
        (show_message config "==> Creating an inventory for adapter signal dumps" st)
    else st in
  if cfg_dump_basecalls config then
    set_inventories (inventories st1 ++ ["events/inventory.h5"])
      (show_message config "==> Creating an inventory for basecalled events" st1)
  else st1.

(** [run], after the remaining tasks were drained: the value returned. *)
Definition run_finish (st : State) : State * option Callback :=
  if negb (cfg_quiet config) && scan_finished (sess st) then
    let st1 := show_message config PyStr.nl st in
    if bool_decide (reads_found (sess st1) = reads_processed (sess st1)) then
      (show_message config "==> Finished." (finalize_results st1), Some print_results)
    else
      (show_message config "==> Terminated." st1, None)
  else (st, None).

(** [run(config, logging)] against a schedule of events. *)
Definition run (evs : list Event) : State * option Callback :=
  run_finish (run_events evs run_start).

End Session.

Definition batch_of (t : Task) : option (Z * list string) :=
  match coroutine t with
  | CoBatch batchid files _ => Some (batchid, files)
  | _ => None
  end.

Definition batches (ts : list Task) : list (Z * list string) := omap batch_of ts.

(** The batches handed to [loop.create_task], in creation order. *)
Definition dispatched (st : State) : list (Z * list string) := batches (tasks st).

(** Every batch coroutine has returned. *)
Definition all_settled (st : State) : Prop :=
  Forall (λ t, match coroutine t with
               | CoBatch _ _ ph => ph = PhReturned
               | _ => True
               end) (tasks st).

(** ** The session invariant *)

(** The [okay] results a batch is writing out are in [files_done]. *)
Definition writing_ok (done : gset string) (t : Task) : Prop :=
  match coroutine t with
  | CoBatch _ _ (PhWriting _ _ nd_results) =>
      ∀ r, r ∈ nd_results → status r = "okay" → filename r ∈ done
  | _ => True
  end.

Definition phase_ok (done : gset string) (ph : BatchPhase) : Prop :=
  match ph with
  | PhWriting _ _ nd_results =>
      ∀ r, r ∈ nd_results → status r = "okay" → filename r ∈ done
  | _ => True
  end.

(** What the loop that removes duplicated results leaves alone. *)
Definition merge_frame (st st' : State) : Prop :=
  running (sess st') = running (sess st)
  ∧ reads_processed (sess st') = reads_processed (sess st)
  ∧ active_batches (sess st') = active_batches (sess st)
  ∧ next_batch_id (sess st') = next_batch_id (sess st)
  ∧ jobstack (sess st') = jobstack (sess st)
  ∧ tasks st' = tasks st
  ∧ err_output st' = err_output st
  ∧ log_errors st' = log_errors st
  ∧ running_cleared st' = running_cleared st
  ∧ loop_stop_calls st' = loop_stop_calls st
  ∧ discovered st' = discovered st
  ∧ files_done (sess st) ⊆ files_done (sess st').


Record Inv (st : State) : Prop := mkInv {
  inv_queued :
    reads_queued (sess st) = reads_found (sess st) - reads_processed (sess st);
  inv_found : reads_found (sess st) = discovered st - duplicates_canceled st;
  inv_done_set : files_done (sess st) = list_to_set (done_adds st);
  inv_done_nodup : NoDup (done_adds st);
  inv_done_okay :
    done_adds st = filename <$> filter (λ r, status r = "okay") (accepted st);
  inv_ids_sorted : StronglySorted Z.lt (dispatched st).*1;
  inv_ids_bound :
    Forall (λ i, 0 ≤ i < next_batch_id (sess st)) (dispatched st).*1;
  inv_next_id : 0 ≤ next_batch_id (sess st);
  inv_cleared :
    running_cleared st = if running (sess st) then 0%nat else 1%nat;
  inv_writing : Forall (writing_ok (files_done (sess st))) (tasks st)
}.

Ltac case_if :=
  match goal with
  | |- context [if ?b then _ else _] => destruct b eqn:?
  end.

(** ** The elementary updates of the state *)

(** The first three statements of [queue_processing]. *)
Definition push (filepath : string) (st : State) : State :=
  set_discovered (discovered st + 1)
    (set_sess
       (set_reads_found (reads_found (sess st) + 1)
          (set_reads_queued (reads_queued (sess st) + 1)
             (set_jobstack (jobstack (sess st) ++ [filepath]) (sess st))))
       st).

(** A batch coroutine between [active_batches += 1] and the [finally]
    clause. *)
Definition phase_active (ph : BatchPhase) : bool :=
  match ph with
  | PhComputing | PhWriting _ _ _ => true
  | _ => false
  end.

Definition task_active (t : Task) : bool :=
  match coroutine t with
  | CoBatch _ _ ph => phase_active ph
  | _ => false
  end.

Definition count_active (ts : list Task) : Z :=
  Z.of_nat (length (filter (λ t, task_active t = true) ts)).

(** The updates every event is made of.  A message given to [errprint]
    outside [stop] starts with [ERROR: ]; a batch coroutine changes phase
    along the control flow of [run_process_batch]. *)
Inductive update (config : Config) : State → State → Prop :=
| U_errprint message st :
    PyStr.startswith message "ERROR: " = true →
    update config st (errprint message st)
| U_logger_error message st : update config st (logger_error message st)
| U_stop signalname st : update config st (stop signalname st)
| U_queue filepath st : update config st (queue_processing config filepath st)
| U_flush st : update config st (flush_jobstack st)
| U_dedup result nd_results st :
    update config st (fst (dedup_result (st, nd_results) result))
| U_count nd_results st : update config st (batch_count nd_results st)
| U_scan_finished st : update config st (upd_sess (set_scan_finished true) st)
| U_watchdog_reset st :
    update config st (upd_sess (set_forced_flush_counter 0) st)
| U_watchdog_tick st :
    update config st
      (upd_sess (λ s, set_forced_flush_counter (forced_flush_counter s + 1) s) st)
| U_return k st : update config st (return_from k st)
| U_sleep batchid files st :
    batch_lookup batchid (tasks st) = Some (files, PhCreated) →
    update config st (batch_goto batchid PhSleeping st)
| U_abandon batchid files st :
    batch_lookup batchid (tasks st) = Some (files, PhSleeping) →
    update config st (batch_goto batchid PhReturned st)
| U_enter batchid files ph st :
    batch_lookup batchid (tasks st) = Some (files, ph) →
    ph = PhCreated ∨ ph = PhSleeping →
    update config st
      (batch_goto batchid PhComputing
         (upd_sess (λ s, set_active_batches (active_batches s + 1) s) st))
| U_write batchid files ph w later nd_results st :
    batch_lookup batchid (tasks st) = Some (files, ph) →
    phase_active ph = true →
    update config st (batch_goto batchid (PhWriting w later nd_results) st)
| U_leave batchid files ph st :
    batch_lookup batchid (tasks st) = Some (files, ph) →
    phase_active ph = true →
    update config st (batch_goto batchid PhReturned (batch_finally st)).

(** The batch ids in use are increasing and below [next_batch_id], and
    [active_batches] counts the batch coroutines that are between their
    increment and their [finally] clause. *)
Definition active_accounted (st : State) : Prop :=
  StronglySorted Z.lt (dispatched st).*1
  ∧ Forall (λ i, 0 ≤ i < next_batch_id (sess st)) (dispatched st).*1
  ∧ 0 ≤ next_batch_id (sess st)
  ∧ active_batches (sess st) = count_active (tasks st).

(** ** What only grows *)

(** The history of a session: the done set, the processed count, the batch
    ids and the batches created, the error stream and the log only grow,
    no inventory is created, [running] does not come back and
    [scan_finished] stays. *)
Definition grows (st st' : State) : Prop :=
  files_done (sess st) ⊆ files_done (sess st')
  ∧ reads_processed (sess st) ≤ reads_processed (sess st')
  ∧ next_batch_id (sess st) ≤ next_batch_id (sess st')
  ∧ dispatched st `prefix_of` dispatched st'
  ∧ err_output st `prefix_of` err_output st'
  ∧ log_errors st `prefix_of` log_errors st'
  ∧ inventories st' = inventories st
  ∧ (running (sess st) = false → running (sess st') = false)
  ∧ (scan_finished (sess st) = true → scan_finished (sess st') = true).

(** How often the notice of [stop] is on the error stream. *)
Definition notices (st : State) : nat :=
  length (filter (λ m, m = termination_notice) (err_output st)).

(** ** Batches and the pending buffer *)

(** The largest batch [flush_jobstack] can be asked to submit. *)
Definition batch_limit (config : Config) : Z := Z.max 1 (cfg_batch_chunk_size config).

Definition batches_bounded (config : Config) (st : State) : Prop :=
  (running (sess st) = true →
   Z.of_nat (length (jobstack (sess st))) < batch_limit config)
  ∧ Forall (λ b, b.2 ≠ [] ∧ Z.of_nat (length b.2) ≤ batch_limit config)
      (dispatched st).

(** The files on their way to the workers: those of the batches created,
    then the pending ones that are not done. *)
Definition pipeline_files (st : State) : list string :=
  concat (dispatched st).*2
  ++ filter (λ f, f ∉ files_done (sess st)) (jobstack (sess st)).

(** ** [scan_dir_recursive_worker] *)

(** [listdir] is what [os.listdir(dirname)] returned and [isdir] is
    [os.path.isdir]. *)
Definition scan_dir_recursive_worker (listdir : list string)
    (isdir : string → bool) (dirname suffix : string)
  : list string * list string :=
  foldl (λ acc entryname,
           let '(dirs, files) := acc in
           if PyStr.startswith entryname "." then (dirs, files)
           else if isdir (PyStr.path_join dirname entryname)
                then (dirs ++ [entryname], files)
           else if PyStr.endswith (PyStr.lower entryname) suffix
                then (dirs, files ++ [entryname])
           else (dirs, files))
    ([], []) listdir.

(** ** Awaits that end in the silent [except] clause *)

(** What [except (CancelledError, BrokenProcessPool)] catches. *)
Definition swallowed {A : Type} (r : Awaited A) : bool :=
  match r with
  | Got _ => false
  | Cancelled => true
  | Raised exc => is_BrokenProcessPool exc
  end.

(** ** The status line of [monitor_progresses_live] *)

(** The local variables the loop keeps between two heartbeats;
    [glider_position] counts the calls of [next(iterglider)]. *)
Record LiveView := mkLiveView {
  prev_processed : Z;
  prev_queued : Z;
  prev_found : Z;
  prev_message_width : nat;
  glider_position : nat
}.

Definition live_view_start : LiveView :=
  {| prev_processed := -1; prev_queued := -1; prev_found := -1;
     prev_message_width := 0; glider_position := 0 |}.

(** [cycle(r'/-\|')] *)
Definition glider (position : nat) : string :=
  match (position mod 4)%nat with
  | 0%nat => "/"
  | 1%nat => "-"
  | 2%nat => String (ascii_of_nat 92) EmptyString
  | _ => "|"
  end.

Definition spaces (n : nat) : string := Nat.iter n (String " ") EmptyString.

Definition status_message (glyph : string) (s : Session) : string :=
  String (ascii_of_nat 13) "LIVE [" +:+ glyph +:+ "] "
  +:+ pretty (reads_processed s) +:+ " processed, "
  +:+ pretty (reads_queued s) +:+ " queued ("
  +:+ pretty (reads_found s) +:+ " total reads)".

(** The first half of the loop body: what is written to standard output,
    if anything, and the local variables afterwards. *)
Definition live_status (s : Session) (v : LiveView) : option string * LiveView :=
  let changedany :=
    negb (prev_processed v =? reads_processed s)
    || negb (prev_queued v =? reads_queued s)
    || negb (prev_found v =? reads_found s) in
  if changedany || (0 <? active_batches s) then
    let msg := status_message (glider (glider_position v)) s in
    let msg :=
      if (String.length msg <? prev_message_width v)%nat
      then msg +:+ spaces (prev_message_width v - String.length msg)
      else msg in
    (Some msg,
     {| prev_processed := reads_processed s; prev_queued := reads_queued s;
        prev_found := reads_found s; prev_message_width := String.length msg;
        glider_position := S (glider_position v) |})
  else (None, v).

(** ** The command line ([commandline.py]) *)

(** The parsed arguments. *)
Record Args := mkArgs {
  args_input : string;
  args_output : string;
  args_parallel : Z;
  args_batch_chunk : Z;
  args_config : string;
  args_live : bool;
  args_albacore_onthefly : bool;
  args_barcoding : bool;
  args_align : option string;
  args_trim_adapter : bool;
  args_keep_unsplit : bool;
  args_dump_adapter_signals : bool;
  args_dump_basecalled_events : bool;
  args_fastq : bool;
  args_fast5 : bool;
  args_symlink_fast5 : bool;
  args_tmpdir : string;
  args_live_analysis_delay : Z;
  args_quiet : bool;
  args_yes : bool
}.

(** The assignments of [main] to the keys of [config] the pipeline
    reads. *)
Definition main_config (args : Args) : Config :=
  {| cfg_inputdir := args_input args;
     cfg_live := args_live args;
     cfg_quiet := args_quiet args;
     cfg_batch_chunk_size := args_batch_chunk args;
     cfg_analysis_start_delay :=
       if args_live args then args_live_analysis_delay args else 0;
     cfg_barcoding := args_barcoding args;
     cfg_fastq_output := bool_decide (args_align args = None) || args_fastq args;
     cfg_fast5_output := args_fast5 args || args_symlink_fast5 args;
     cfg_minimap2_index :=
       if truthy (args_align args) then args_align args else None;
     cfg_dump_adapter_signals := args_dump_adapter_signals args;
     cfg_dump_basecalls := args_dump_basecalled_events args |}.

(** [create_output_directories]: the subdirectories it makes sure exist. *)
Definition conditional_subdirs : list ((Config → bool) * string) :=
  [(cfg_fastq_output, "fastq");
   (cfg_fast5_output, "fast5");
   ((λ config, truthy (cfg_minimap2_index config)), "bam");
   (cfg_dump_adapter_signals, "adapter-dumps");
   (cfg_dump_basecalls, "events")].

Definition output_subdirs (config : Config) : list string :=
  omap (λ entry : (Config → bool) * string,
          if entry.1 config then Some entry.2 else None)
    conditional_subdirs.

Section OutputNames.
(** The constants of the package that [setup_output_name_mapping] uses;
    [OUTPUT_NAME_BARCODES n] is [OUTPUT_NAME_BARCODES.format(n=n)]. *)
Variables OUTPUT_NAME_FAILED OUTPUT_NAME_PASSED OUTPUT_NAME_ARTIFACT : string.
Variable OUTPUT_NAME_BARCODES : Z → string.

(** [setup_output_name_mapping(config)], as a function of the three
    settings it reads: [barcoding], [demultiplexing.number_of_barcodes] and
    [filter_unsplit_reads].  The keys of the dictionary are strings and
    integers. *)
Definition setup_output_name_mapping (barcoding : bool) (number_of_barcodes : Z)
    (filter_unsplit_reads : bool) : gmap (string + Z) string :=
  let names : gmap (string + Z) string :=
    <[inl "pass" := OUTPUT_NAME_PASSED]> (<[inl "fail" := OUTPUT_NAME_FAILED]> ∅) in
  let names :=
    if barcoding then
      foldl (λ acc i, <[inr i := OUTPUT_NAME_BARCODES (i + 1)]> acc) names
        (seqZ 0 number_of_barcodes)
    else names in
  if filter_unsplit_reads
  then <[inl "artifact" := OUTPUT_NAME_ARTIFACT]> names else names.

End OutputNames.

(** ** Concrete sessions used in the examples *)

Module Ex.

Definition okay (f : string) : Result :=
  {| filename := f; status := "okay"; read_id := Some f; label := None |}.

(** A stand-in analyzer: it basecalls every file it is given, except that
    it cannot read files whose name starts with [bad]. *)
#[global] Instance analyzer : SignalAnalyzer unit := {|
  an_enter := λ _ _, Return tt;
  an_process := λ a f,
    (a, if PyStr.startswith f "bad"
        then Raise {| exc_type := "OSError"; exc_str := "unreadable" |}
        else Return (okay f));
  an_predict_barcode_labels := λ _, Return ∅;
  an_exit := λ _, Return tt
|}.

Definition print_exc (e : Exc) : string :=
  "Traceback (most recent call last):" +:+ PyStr.nl
  +:+ exc_type e +:+ ": " +:+ exc_str e +:+ PyStr.nl.

(** Only [in/a.fast5] is still there when the batch is analysed. *)
Definition only_a (path : string) : bool := String.eqb path "in/a.fast5".

Definition config : Config :=
  {| cfg_inputdir := "in"; cfg_live := false; cfg_quiet := false;
     cfg_batch_chunk_size := 2; cfg_analysis_start_delay := 0;
     cfg_barcoding := false; cfg_fastq_output := true;
     cfg_fast5_output := false; cfg_minimap2_index := None;
     cfg_dump_adapter_signals := true; cfg_dump_basecalls := false |}.

Definition with_live (chunk : Z) (c : Config) : Config :=
  {| cfg_inputdir := cfg_inputdir c; cfg_live := true; cfg_quiet := cfg_quiet c;
     cfg_batch_chunk_size := chunk;
     cfg_analysis_start_delay := cfg_analysis_start_delay c;
     cfg_barcoding := cfg_barcoding c; cfg_fastq_output := cfg_fastq_output c;
     cfg_fast5_output := cfg_fast5_output c;
     cfg_minimap2_index := cfg_minimap2_index c;
     cfg_dump_adapter_signals := cfg_dump_adapter_signals c;
     cfg_dump_basecalls := cfg_dump_basecalls c |}.

Definition with_quiet (c : Config) : Config :=
  {| cfg_inputdir := cfg_inputdir c; cfg_live := cfg_live c; cfg_quiet := true;
     cfg_batch_chunk_size := cfg_batch_chunk_size c;
     cfg_analysis_start_delay := cfg_analysis_start_delay c;
     cfg_barcoding := cfg_barcoding c; cfg_fastq_output := cfg_fastq_output c;
     cfg_fast5_output := cfg_fast5_output c;
     cfg_minimap2_index := cfg_minimap2_index c;
     cfg_dump_adapter_signals := cfg_dump_adapter_signals c;
     cfg_dump_basecalls := cfg_dump_basecalls c |}.

Definition with_barcoding (c : Config) : Config :=
  {| cfg_inputdir := cfg_inputdir c; cfg_live := cfg_live c; cfg_quiet := cfg_quiet c;
     cfg_batch_chunk_size := cfg_batch_chunk_size c;
     cfg_analysis_start_delay := cfg_analysis_start_delay c;
     cfg_barcoding := true; cfg_fastq_output := cfg_fastq_output c;
     cfg_fast5_output := cfg_fast5_output c;
     cfg_minimap2_index := cfg_minimap2_index c;
     cfg_dump_adapter_signals := cfg_dump_adapter_signals c;
     cfg_dump_basecalls := cfg_dump_basecalls c |}.

Definition live_config : Config := with_live 1 config.

Definition topdir : string := "/data/".
Definition forcedflush : Z := 33.

Definition close_write (f : string) : InotifyEvent :=
  {| ev_mask := IN_CLOSE_WRITE; ev_type_names := ["IN_CLOSE_WRITE"];
     ev_path := "/data/"; ev_filename := f |}.


(** The events of a batch that runs to its end with the given results:
    worker, then the two enabled writers ([fastq] and the sequencing
    summary). *)
Definition batch_ok (batchid : Z) (results : list Result) : list Event :=
  [EvBatchBegin batchid; EvBatchComputed batchid (Got (Results results));
   EvBatchWritten batchid (Got tt) (Return tt);
   EvBatchWritten batchid (Got tt) (Return tt)].

(** Live mode, chunk size 1: [a.fast5] is reported by the watch and
    processed while the initial scan is still under way; the scan then
    lists [a.fast5] as well. *)
Definition watch_then_scan : list Event :=
  EvInotify (Got (Some (close_write "a.fast5")))
  :: batch_ok 0 [okay "a.fast5"] ++ [EvScanListed EmptyString (Got ["a.fast5"])].

(** The same, and the scan lists [b.fast5] after [a.fast5]. *)
Definition watch_then_scan_two : list Event :=
  EvInotify (Got (Some (close_write "a.fast5")))
  :: batch_ok 0 [okay "a.fast5"] ++ [EvScanListed EmptyString (Got ["a.fast5"; "b.fast5"])].

(** No live mode: the scan finds [a.fast5], the batch is processed. *)
Definition scan_one : list Event :=
  [EvScanListed EmptyString (Got ["a.fast5"]); EvScanEnd] ++ batch_ok 0 [okay "a.fast5"]
  ++ [EvMonitorWake (Got tt)].

(** A batch is in flight and a third file is waiting in the buffer when
    the operator interrupts. *)
Definition interrupted : list Event :=
  [EvScanListed EmptyString (Got ["a.fast5"; "b.fast5"; "c.fast5"]); EvBatchBegin 0;
   EvSignal "SIGINT"].

(** A batch of two files, one of which has vanished, up to the writers. *)
Definition two_files_one_gone : list Event :=
  [EvScanListed EmptyString (Got ["a.fast5"; "gone.fast5"]); EvBatchBegin 0;
   EvBatchComputed 0 (Got (Results [okay "a.fast5"; disappeared "gone.fast5"]))].

(** A batch with a file the stand-in analyzer cannot read, up to the point
    where the orchestrator waits for the worker. *)
Definition unreadable_batch : list Event :=
  [EvScanListed EmptyString (Got ["a.fast5"; "bad.fast5"]); EvBatchBegin 0].


Definition disk_full : Exc := {| exc_type := "OSError"; exc_str := "disk full" |}.


End Ex.

(** * Properties *)

(** ** String helpers *)

Lemma commonprefix_startswith (a b : string) :
  String.eqb (PyStr.commonprefix a b) a = PyStr.startswith b a.
Proof.
  revert b. induction a as [|x a IH]; intros [|y b]; simpl; try reflexivity.
  destruct (Ascii.eqb x y) eqn:E; simpl.
  - rewrite Ascii.eqb_refl. apply IH.
  - reflexivity.
Qed.

(** ** Flushing the pending buffer *)

Lemma flush_jobstack_idle (st : State) :
  running (sess st) = false ∨ jobstack (sess st) = [] → flush_jobstack st = st.
Proof.
  unfold flush_jobstack. intros [Hstopped | Hempty].
  - now rewrite Hstopped.
  - rewrite Hempty. simpl. now rewrite andb_false_r.
Qed.

(** C8: [flush_jobstack] on an empty buffer, or while the session is not
    running, leaves the whole state as it is: no batch id is consumed and
    no task is created. *)
Theorem C8_flush_noop (st : State) :
  running (sess st) = false ∨ jobstack (sess st) = [] →
  flush_jobstack st = st
  ∧ next_batch_id (sess (flush_jobstack st)) = next_batch_id (sess st)
  ∧ dispatched (flush_jobstack st) = dispatched st.
Proof.
  intros Hidle. rewrite (flush_jobstack_idle st Hidle). repeat split.
Qed.

Lemma C8_flush_noop_witness :
  let st := run_events Ex.config Ex.topdir Ex.forcedflush Ex.interrupted
              (run_start Ex.config) in
  (running (sess st) = false ∨ jobstack (sess st) = [])
  ∧ jobstack (sess st) = ["c.fast5"]
  ∧ flush_jobstack st = st.
Proof.
  intros st.
  assert (Hidle : running (sess st) = false ∨ jobstack (sess st) = [])
    by (left; vm_compute; reflexivity).
  split; [exact Hidle|]. split; [vm_compute; reflexivity|].
  exact (proj1 (C8_flush_noop st Hidle)).
Defined.

(** ** Stopping *)

(** C4, the part that holds: once [running] is false, [stop] changes no
    attribute of the session and writes nothing; what it still does is
    call [cancel()] on every task and [loop.stop()] once more. *)
Theorem C4_stop_when_stopped (signalname : string) (st : State) :
  running (sess st) = false →
  sess (stop signalname st) = sess st
  ∧ err_output (stop signalname st) = err_output st
  ∧ std_output (stop signalname st) = std_output st
  ∧ log_errors (stop signalname st) = log_errors st
  ∧ running_cleared (stop signalname st) = running_cleared st
  ∧ tasks (stop signalname st) = map cancel (tasks st)
  ∧ loop_stop_calls (stop signalname st) = S (loop_stop_calls st).
Proof.
  intros Hstopped. unfold stop. rewrite Hstopped. simpl. repeat split.
Qed.

Lemma C4_stop_when_stopped_witness :
  let st := run_events Ex.config Ex.topdir Ex.forcedflush Ex.interrupted
              (run_start Ex.config) in
  running (sess st) = false
  ∧ sess (stop "SIGTERM" st) = sess st
  ∧ err_output (stop "SIGTERM" st) = err_output st.
Proof.
  intros st.
  assert (Hstopped : running (sess st) = false) by (vm_compute; reflexivity).
  pose proof (C4_stop_when_stopped "SIGTERM" st Hstopped) as (Hs & He & _).
  exact (conj Hstopped (conj Hs He)).
Defined.

(** C4 as stated fails: with a batch in flight, a second [stop] asks every
    task that is not done to cancel again and stops the loop again. *)
Lemma C4_second_stop_cancels_again :
  let st := run_events Ex.config Ex.topdir Ex.forcedflush Ex.interrupted
              (run_start Ex.config) in
  running (sess st) = false
  ∧ map cancel_requests (tasks st) = [1; 1; 1]%nat
  ∧ map cancel_requests (tasks (stop "SIGINT" st)) = [2; 2; 2]%nat
  ∧ loop_stop_calls (stop "SIGINT" st) = 2%nat
  ∧ stop "SIGINT" st ≠ st.
Proof.
  intros st.
  assert (Hloop : loop_stop_calls (stop "SIGINT" st) = 2%nat) by (vm_compute; reflexivity).
  split; [vm_compute; reflexivity|].
  split; [vm_compute; reflexivity|].
  split; [vm_compute; reflexivity|].
  split; [exact Hloop|].
  intros Heq. rewrite Heq in Hloop. vm_compute in Hloop. discriminate.
Qed.

(** ** Frame lemmas for the buffer operations *)

Lemma flush_jobstack_frame (st : State) :
  forced_flush_counter (sess (flush_jobstack st)) = forced_flush_counter (sess st)
  ∧ files_done (sess (flush_jobstack st)) = files_done (sess st)
  ∧ running (sess (flush_jobstack st)) = running (sess st)
  ∧ reads_processed (sess (flush_jobstack st)) = reads_processed (sess st)
  ∧ active_batches (sess (flush_jobstack st)) = active_batches (sess st)
  ∧ discovered (flush_jobstack st) = discovered st
  ∧ err_output (flush_jobstack st) = err_output st
  ∧ log_errors (flush_jobstack st) = log_errors st
  ∧ running_cleared (flush_jobstack st) = running_cleared st
  ∧ done_adds (flush_jobstack st) = done_adds st
  ∧ accepted (flush_jobstack st) = accepted st
  ∧ loop_stop_calls (flush_jobstack st) = loop_stop_calls st.
Proof. unfold flush_jobstack. repeat case_if; simpl; repeat split. Qed.

Lemma queue_processing_frame (config : Config) (filepath : string) (st : State) :
  forced_flush_counter (sess (queue_processing config filepath st))
    = forced_flush_counter (sess st)
  ∧ files_done (sess (queue_processing config filepath st)) = files_done (sess st)
  ∧ running (sess (queue_processing config filepath st)) = running (sess st)
  ∧ reads_processed (sess (queue_processing config filepath st))
    = reads_processed (sess st)
  ∧ active_batches (sess (queue_processing config filepath st))
    = active_batches (sess st)
  ∧ discovered (queue_processing config filepath st) = discovered st + 1
  ∧ err_output (queue_processing config filepath st) = err_output st
  ∧ log_errors (queue_processing config filepath st) = log_errors st
  ∧ running_cleared (queue_processing config filepath st) = running_cleared st
  ∧ done_adds (queue_processing config filepath st) = done_adds st
  ∧ accepted (queue_processing config filepath st) = accepted st
  ∧ loop_stop_calls (queue_processing config filepath st) = loop_stop_calls st.
Proof.
  unfold queue_processing. case_if.
  - match goal with |- context [flush_jobstack ?s] =>
      pose proof (flush_jobstack_frame s)
        as (-> & -> & -> & -> & -> & -> & -> & -> & -> & -> & -> & ->)
    end.
    simpl. repeat split.
  - simpl. repeat split.
Qed.

(** ** The live watch *)



Example live_event_inside_root :
  let st := live_event Ex.live_config Ex.topdir (Some (Ex.close_write "A.FAST5"))
              (run_start Ex.live_config) in
  dispatched st = [(0, ["A.FAST5"])] ∧ reads_found (sess st) = 1.
Proof. vm_compute. split; reflexivity. Qed.

(** ** The value [run] returns *)

Lemma run_finish_not_quiet (config : Config) (st : State) :
  cfg_quiet config = false →
  (snd (run_finish config st) = Some print_results
   ↔ scan_finished (sess st) = true ∧ reads_found (sess st) = reads_processed (sess st)).
Proof.
  intros Hq. unfold run_finish, show_message. rewrite Hq. simpl.
  destruct (scan_finished (sess st)); simpl.
  - case_bool_decide; simpl; split; try tauto; try discriminate.
  - split; [discriminate | intros [? _]; discriminate].
Qed.

Lemma run_quiet (config : Config) (topdir : string) (forcedflush : Z)
    (evs : list Event) :
  cfg_quiet config = true →
  run config topdir forcedflush evs
  = (run_events config topdir forcedflush evs (run_start config), None).
Proof. intros Hq. unfold run, run_finish. now rewrite Hq. Qed.

(** C5 fails in quiet mode: the scan completed, the one file found was
    processed, the session was never stopped, and still [run] returns
    nothing and creates no inventory.  The same schedule without
    [quiet] returns the summary callback and creates the inventory. *)
Theorem C5_quiet_run_returns_nothing :
  let quiet := Ex.with_quiet Ex.config in
  let st := run_events quiet Ex.topdir Ex.forcedflush Ex.scan_one (run_start quiet) in
  scan_finished (sess st) = true
  ∧ reads_found (sess st) = 1 ∧ reads_processed (sess st) = 1
  ∧ running (sess st) = true
  ∧ cfg_dump_adapter_signals quiet = true
  ∧ snd (run quiet Ex.topdir Ex.forcedflush Ex.scan_one) = None
  ∧ inventories (fst (run quiet Ex.topdir Ex.forcedflush Ex.scan_one)) = []
  ∧ snd (run Ex.config Ex.topdir Ex.forcedflush Ex.scan_one) = Some print_results
  ∧ inventories (fst (run Ex.config Ex.topdir Ex.forcedflush Ex.scan_one))
    = ["adapter-dumps/inventory.h5"].
Proof. vm_compute. repeat split; reflexivity. Qed.

(** ** Vanished files *)

Section WorkerFacts.
Context {A : Type} `{SignalAnalyzer A}.
Variable path_exists : string -> bool.
Variable print_exc : Exc -> string.

Lemma analyze_reads_keeps (inputdir : string) (reads : list string) :
  ∀ analyzer calls results analyzer' calls' results',
    analyze_reads path_exists inputdir analyzer calls results reads
      = (analyzer', calls', Return results') →
    ∀ r, r ∈ results → r ∈ results'.
Proof.
  induction reads as [|f5file rest IH]; simpl; intros analyzer calls results
    analyzer' calls' results' Hrun r Hr.
  - congruence.
  - destruct (path_exists _).
    + unfold process_file in Hrun.
      destruct (an_process analyzer f5file) as [analyzer1 [r1|e]]; [|discriminate].
      eapply IH; [exact Hrun|]. apply elem_of_app. now left.
    + eapply IH; [exact Hrun|]. apply elem_of_app. now left.
Qed.

Lemma analyze_reads_vanished (inputdir : string) (reads : list string) :
  ∀ analyzer calls results analyzer' calls' results' f5file,
    analyze_reads path_exists inputdir analyzer calls results reads
      = (analyzer', calls', Return results') →
    f5file ∈ reads →
    path_exists (PyStr.path_join inputdir f5file) = false →
    disappeared f5file ∈ results'.
Proof.
  induction reads as [|f rest IH]; simpl; intros analyzer calls results
    analyzer' calls' results' f5file Hrun Hin Hgone.
  - inversion Hin.
  - apply elem_of_cons in Hin as [-> | Hin].
    + rewrite Hgone in Hrun.
      eapply analyze_reads_keeps; [exact Hrun|]. apply elem_of_app. right.
      apply list_elem_of_singleton. reflexivity.
    + destruct (path_exists (PyStr.path_join inputdir f)).
      * unfold process_file in Hrun.
        destruct (an_process analyzer f) as [analyzer1 [r1|e]]; [|discriminate].
        eapply IH; eauto.
      * eapply IH; eauto.
Qed.

Lemma assign_labels_KeyError (barcode_assg : gmap string Z) (results : list Result) :
  (∃ r, r ∈ results ∧ read_id r = None) →
  assign_labels barcode_assg results = Raise KeyError_read_id.
Proof.
  induction results as [|res rest IH]; intros (r & Hin & Hnone).
  - inversion Hin.
  - simpl. destruct (read_id res) as [rid|] eqn:Hrid; [|reflexivity].
    apply elem_of_cons in Hin as [-> | Hin]; [congruence|].
    rewrite IH by eauto. reflexivity.
Qed.

(** With barcoding on, a batch with a vanished file never yields its
    results, whatever the analyzer does. *)
Lemma vanished_file_barcoding_sentinel (batchid : Z) (reads : list string)
    (config : Config) (f5file : string) :
  cfg_barcoding config = true →
  f5file ∈ reads →
  path_exists (PyStr.path_join (cfg_inputdir config) f5file) = false →
  ∃ exc, process_batch path_exists print_exc batchid reads config
         = Return (Sentinel (-1) (unhandled_message exc) (print_exc exc)).
Proof.
  intros Hbar Hin Hgone. unfold process_batch, process_batch_try.
  destruct (an_enter config batchid) as [analyzer|e]; [|eauto].
  unfold with_body. rewrite Hbar.
  destruct (analyze_reads _ _ _ _ _ _) as [[analyzer' calls] [results|e]] eqn:Hrun.
  - pose proof (analyze_reads_vanished _ _ _ _ _ _ _ _ _ Hrun Hin Hgone) as Hres.
    destruct (an_predict_barcode_labels analyzer') as [assg|e]; simpl.
    + rewrite assign_labels_KeyError by (exists (disappeared f5file); eauto).
      destruct (an_exit analyzer'); simpl; eauto.
    + destruct (an_exit analyzer'); simpl; eauto.
  - destruct (an_exit analyzer'); simpl; eauto.
Qed.


End WorkerFacts.

(** C7 fails when barcoding is on: the dictionary made for the vanished
    file has no [read_id], the labelling loop raises [KeyError] on it, and
    the batch comes back as the fatal-error tuple.  The orchestrator then
    stops the session; neither file is counted as processed and
    [a.fast5] does not enter [files_done]. *)
Theorem C7_vanished_file_under_barcoding :
  let barcoding := Ex.with_barcoding Ex.config in
  let outcome := Sentinel (-1) "Unhandled exception KeyError: 'read_id'"
                   (Ex.print_exc KeyError_read_id) in
  let st := run_events barcoding Ex.topdir Ex.forcedflush
              [EvScanListed EmptyString (Got ["a.fast5"; "gone.fast5"]); EvBatchBegin 0;
               EvBatchComputed 0 (Got outcome)] (run_start barcoding) in
  process_batch (A:=unit) Ex.only_a Ex.print_exc 0 ["a.fast5"; "gone.fast5"] barcoding
  = Return outcome
  ∧ running (sess st) = false
  ∧ reads_processed (sess st) = 0
  ∧ reads_queued (sess st) = 2
  ∧ files_done (sess st) = ∅.
Proof. vm_compute. repeat split; reflexivity. Qed.

(** The same batch with barcoding off: one [okay] and one [disappeared]
    result, the analyzer is called on [a.fast5] only, both results are
    counted as processed and only [a.fast5] enters [files_done]. *)
Example vanished_file_without_barcoding :
  let st := run_events Ex.config Ex.topdir Ex.forcedflush
              (Ex.two_files_one_gone
               ++ [EvBatchWritten 0 (Got tt) (Return tt);
                   EvBatchWritten 0 (Got tt) (Return tt)]) (run_start Ex.config) in
  process_batch (A:=unit) Ex.only_a Ex.print_exc 0 ["a.fast5"; "gone.fast5"] Ex.config
  = Return (Results [Ex.okay "a.fast5"; disappeared "gone.fast5"])
  ∧ analyzer_calls (A:=unit) Ex.only_a 0 ["a.fast5"; "gone.fast5"] Ex.config = ["a.fast5"]
  ∧ reads_processed (sess st) = 2
  ∧ reads_queued (sess st) = 0
  ∧ elements (files_done (sess st)) = ["a.fast5"]
  ∧ batch_phase 0 st = Some PhReturned.
Proof. vm_compute. repeat split; reflexivity. Qed.

(** ** Tasks and batches *)

Lemma batches_map (f : Task → Task) (ts : list Task) :
  (∀ t, batch_of (f t) = batch_of t) → batches (map f ts) = batches ts.
Proof.
  intros Hf. unfold batches. induction ts as [|t ts IH]; [reflexivity|].
  change (map f (t :: ts)) with (f t :: map f ts).
  change (omap batch_of (f t :: map f ts)) with
    (match batch_of (f t) with
     | Some b => b :: omap batch_of (map f ts)
     | None => omap batch_of (map f ts)
     end).
  rewrite Hf, IH. reflexivity.
Qed.

Lemma batches_snoc (ts : list Task) (t : Task) :
  batches (ts ++ [t]) = batches ts ++ match batch_of t with
                                       | Some b => [b]
                                       | None => []
                                       end.
Proof.
  unfold batches. rewrite omap_app. simpl. destruct (batch_of t); reflexivity.
Qed.

Lemma batch_of_cancel (t : Task) : batch_of (cancel t) = batch_of t.
Proof. unfold cancel. case_if; reflexivity. Qed.

Lemma batch_of_set_phase (batchid : Z) (ph : BatchPhase) (t : Task) :
  batch_of (set_phase batchid ph t) = batch_of t.
Proof.
  unfold set_phase, batch_of. destruct (coroutine t) eqn:Hc; rewrite ?Hc; try reflexivity.
  case_bool_decide; simpl; rewrite ?Hc; reflexivity.
Qed.

Lemma batch_of_return_task (k : Kind) (t : Task) :
  batch_of (return_task k t) = batch_of t.
Proof.
  unfold return_task, batch_of.
  destruct k, (coroutine t) eqn:Hc; simpl; rewrite ?Hc; reflexivity.
Qed.

Lemma writing_ok_mono (done done' : gset string) (t : Task) :
  done ⊆ done' → writing_ok done t → writing_ok done' t.
Proof.
  unfold writing_ok. intros Hsub.
  destruct (coroutine t) as [| | |b files ph]; try tauto.
  destruct ph; try tauto. intros Hok r Hr Hst. apply Hsub. auto.
Qed.

Lemma writing_ok_cancel (done : gset string) (t : Task) :
  writing_ok done t → writing_ok done (cancel t).
Proof. unfold cancel. case_if; auto. Qed.

Lemma writing_ok_return_task (done : gset string) (k : Kind) (t : Task) :
  writing_ok done t → writing_ok done (return_task k t).
Proof.
  unfold return_task, writing_ok.
  destruct k, (coroutine t) eqn:Hc; simpl; rewrite ?Hc; auto.
Qed.

Lemma writing_ok_set_phase (done : gset string) (batchid : Z) (ph : BatchPhase)
    (t : Task) :
  phase_ok done ph → writing_ok done t → writing_ok done (set_phase batchid ph t).
Proof.
  intros Hph Ht. unfold set_phase.
  destruct (coroutine t) eqn:Hc; try exact Ht.
  case_bool_decide; [|exact Ht].
  unfold writing_ok. simpl. destruct ph; auto.
Qed.

Lemma batch_lookup_writing (done : gset string) (batchid : Z) (ts : list Task)
    (files : list string) (ph : BatchPhase) :
  Forall (writing_ok done) ts →
  batch_lookup batchid ts = Some (files, ph) →
  phase_ok done ph.
Proof.
  induction 1 as [|t ts Ht Hts IH]; simpl; [discriminate|].
  unfold writing_ok in Ht.
  destruct (coroutine t) as [| | |b fs p]; auto.
  case_bool_decide; auto.
  intros [= <- <-]. destruct p; simpl; auto.
Qed.

(** ** Preservation of the invariant *)

(** A state that differs only in fields the invariant does not read. *)
Lemma Inv_frame (st st' : State) :
  Inv st →
  reads_queued (sess st') = reads_queued (sess st) →
  reads_found (sess st') = reads_found (sess st) →
  reads_processed (sess st') = reads_processed (sess st) →
  next_batch_id (sess st') = next_batch_id (sess st) →
  files_done (sess st') = files_done (sess st) →
  running (sess st') = running (sess st) →
  discovered st' = discovered st →
  duplicates_canceled st' = duplicates_canceled st →
  done_adds st' = done_adds st →
  accepted st' = accepted st →
  running_cleared st' = running_cleared st →
  dispatched st' = dispatched st →
  Forall (writing_ok (files_done (sess st))) (tasks st') →
  Inv st'.
Proof.
  intros [] Hq Hf Hp Hn Hd Hr Hdi Hdu Hda Hac Hrc Hdp Hw.
  constructor; rewrite ?Hq, ?Hf, ?Hp, ?Hn, ?Hd, ?Hr, ?Hdi, ?Hdu, ?Hda, ?Hac,
    ?Hrc, ?Hdp; assumption.
Qed.

Ltac inv_fields H :=
  pose proof H as [Hqueued Hfound Hset Hnodup Hokay Hsorted Hbound Hnext
                     Hcleared Hwriting].

Ltac frame st :=
  apply (Inv_frame st); [assumption | try reflexivity ..].

Lemma errprint_Inv (message : string) (st : State) :
  Inv st → Inv (errprint message st).
Proof. intros HI. frame st. apply HI. Qed.

Lemma logger_error_Inv (message : string) (st : State) :
  Inv st → Inv (logger_error message st).
Proof. intros HI. frame st. apply HI. Qed.

Lemma stop_Inv (signalname : string) (st : State) : Inv st → Inv (stop signalname st).
Proof.
  intros HI. inv_fields HI.
  assert (Hw : Forall (writing_ok (files_done (sess st))) (map cancel (tasks st))).
  { apply Forall_fmap. eapply Forall_impl; [eassumption|].
    intros t. apply writing_ok_cancel. }
  assert (Hb : batches (map cancel (tasks st)) = dispatched st)
    by (apply batches_map, batch_of_cancel).
  unfold stop. destruct (running (sess st)) eqn:Hrun.
  - constructor; unfold dispatched; simpl; rewrite ?Hb; try assumption.
    rewrite Hcleared. reflexivity.
  - frame st; unfold dispatched; simpl; assumption.
Qed.

Lemma errx_Inv (message : string) (st : State) : Inv st → Inv (errx message st).
Proof.
  intros HI. unfold errx. case_if; [|assumption].
  apply stop_Inv, errprint_Inv, HI.
Qed.

Lemma return_from_Inv (k : Kind) (st : State) : Inv st → Inv (return_from k st).
Proof.
  intros HI. frame st; unfold dispatched; simpl.
  - apply batches_map, batch_of_return_task.
  - apply Forall_fmap. eapply Forall_impl; [apply HI|].
    intros t. apply writing_ok_return_task.
Qed.

Lemma batch_goto_Inv (batchid : Z) (ph : BatchPhase) (st : State) :
  phase_ok (files_done (sess st)) ph → Inv st → Inv (batch_goto batchid ph st).
Proof.
  intros Hph HI. frame st; unfold dispatched; simpl.
  - apply batches_map, batch_of_set_phase.
  - apply Forall_fmap. eapply Forall_impl; [apply HI|].
    intros t. apply writing_ok_set_phase, Hph.
Qed.

Lemma upd_active_Inv (d : Z) (st : State) :
  Inv st → Inv (upd_sess (λ s, set_active_batches (active_batches s + d) s) st).
Proof. intros HI. frame st. apply HI. Qed.

Lemma batch_finally_Inv (st : State) : Inv st → Inv (batch_finally st).
Proof. intros HI. frame st. apply HI. Qed.

Lemma set_forced_flush_counter_Inv (v : Z) (st : State) :
  Inv st → Inv (upd_sess (set_forced_flush_counter v) st).
Proof. intros HI. frame st. apply HI. Qed.

Lemma set_scan_finished_Inv (v : bool) (st : State) :
  Inv st → Inv (upd_sess (set_scan_finished v) st).
Proof. intros HI. frame st. apply HI. Qed.

Lemma batch_count_Inv (nd_results : list Result) (st : State) :
  Inv st → Inv (batch_count nd_results st).
Proof.
  intros HI. inv_fields HI.
  constructor; unfold dispatched in *; simpl; try assumption. lia.
Qed.

Lemma ids_snoc (ids : list Z) (next : Z) :
  StronglySorted Z.lt ids →
  Forall (λ i, 0 ≤ i < next) ids →
  0 ≤ next →
  StronglySorted Z.lt (ids ++ [next])
  ∧ Forall (λ i, 0 ≤ i < next + 1) (ids ++ [next]).
Proof.
  intros Hs Hb Hn. split.
  - apply StronglySorted_app. split; [|split].
    + intros x1 x2 H1 H2. apply list_elem_of_singleton in H2 as ->.
      rewrite Forall_forall in Hb. apply Hb in H1. lia.
    + exact Hs.
    + repeat constructor.
  - apply Forall_app. split.
    + eapply Forall_impl; [exact Hb|]. simpl. intros; lia.
    + repeat constructor; lia.
Qed.

Lemma flush_jobstack_Inv (st : State) : Inv st → Inv (flush_jobstack st).
Proof.
  intros HI. inv_fields HI.
  unfold flush_jobstack. case_if; [|assumption].
  destruct (ids_snoc _ _ Hsorted Hbound Hnext) as [Hs Hb].
  assert (Hb' : Forall (λ i, 0 ≤ i < next_batch_id (sess st) + 1) (dispatched st).*1).
  { eapply Forall_impl; [exact Hbound|]. simpl. intros; lia. }
  set (nc := Z.of_nat (length (jobstack (sess st))) - _).
  assert (Hw : ∀ files,
    Forall (writing_ok (files_done (sess st)))
      (tasks st ++ [{| coroutine := CoBatch (next_batch_id (sess st)) files PhCreated;
                       cancel_requests := 0 |}])).
  { intros files. apply Forall_app. split; [assumption|]. repeat constructor. }
  repeat case_bool_decide; constructor; unfold dispatched, create_task in *; simpl;
    rewrite ?batches_snoc; simpl; rewrite ?fmap_app; simpl;
    try assumption; try lia; auto.
Qed.

Lemma queue_processing_Inv (config : Config) (filepath : string) (st : State) :
  Inv st → Inv (queue_processing config filepath st).
Proof.
  intros HI. unfold queue_processing.
  match goal with |- context [set_discovered ?d (set_sess ?s st)] =>
    assert (HI1 : Inv (set_discovered d (set_sess s st)))
  end.
  { inv_fields HI. constructor; unfold dispatched in *; simpl; try assumption; lia. }
  case_if; [apply flush_jobstack_Inv|]; exact HI1.
Qed.

(** ** Merging the results of a batch *)

Lemma merge_frame_refl (st : State) : merge_frame st st.
Proof. unfold merge_frame. repeat split; reflexivity. Qed.

Lemma merge_frame_trans (st1 st2 st3 : State) :
  merge_frame st1 st2 → merge_frame st2 st3 → merge_frame st1 st3.
Proof.
  unfold merge_frame.
  intros (H1 & H2 & H3 & H4 & H5 & H6 & H7 & H8 & H9 & H10 & H11 & H12)
         (K1 & K2 & K3 & K4 & K5 & K6 & K7 & K8 & K9 & K10 & K11 & K12).
  repeat split; try congruence. etrans; eassumption.
Qed.

(** One result: it is either kept, and entered in [files_done] when it is
    [okay], or cancelled as a duplicate. *)
Lemma dedup_result_spec (st : State) (nd_results : list Result) (result : Result) :
  Inv st →
  phase_ok (files_done (sess st)) (PhWriting WSeqSummary [] nd_results) →
  let st' := fst (dedup_result (st, nd_results) result) in
  let nd' := snd (dedup_result (st, nd_results) result) in
  Inv st'
  ∧ phase_ok (files_done (sess st')) (PhWriting WSeqSummary [] nd')
  ∧ merge_frame st st'
  ∧ reads_queued (sess st') + Z.of_nat (length nd')
    = reads_queued (sess st) + Z.of_nat (length nd_results) - 1 + 1
      - (if bool_decide (filename result ∈ files_done (sess st)) then 1 else 0)
      + (if bool_decide (filename result ∈ files_done (sess st)) then 0 else 1).
Proof.
  intros HI Hnd. inv_fields HI. unfold dedup_result. simpl.
  destruct (decide (filename result ∈ files_done (sess st))) as [Hin | Hnotin].
  - rewrite (bool_decide_eq_false_2 (filename result ∉ _)) by tauto.
    rewrite (bool_decide_eq_true_2 _ Hin). simpl.
    split; [|split; [|split]].
    + constructor; unfold dispatched in *; simpl; try assumption; lia.
    + exact Hnd.
    + unfold merge_frame. simpl. repeat split; reflexivity.
    + lia.
  - rewrite (bool_decide_eq_true_2 (filename result ∉ _)) by tauto.
    rewrite (bool_decide_eq_false_2 _ Hnotin). simpl.
    destruct (String.eqb (status result) "okay") eqn:Hst; simpl.
    + apply String.eqb_eq in Hst.
      split; [|split; [|split]].
      * constructor; unfold dispatched in *; simpl; try assumption.
        -- rewrite list_to_set_app_L, list_to_set_singleton_L, Hset. reflexivity.
        -- apply NoDup_app. split; [assumption|]. split.
           ++ intros x Hx Hx'. apply list_elem_of_singleton in Hx' as ->.
              apply Hnotin. rewrite Hset. apply elem_of_list_to_set. exact Hx.
           ++ apply NoDup_singleton.
        -- rewrite filter_app, fmap_app, <- Hokay.
           rewrite filter_cons_True by exact Hst. reflexivity.
        -- eapply Forall_impl; [exact Hwriting|].
           intros t. apply writing_ok_mono, union_subseteq_l.
      * simpl. intros r Hr Hok. apply elem_of_app in Hr as [Hr | Hr].
        -- apply elem_of_union. left. apply Hnd; assumption.
        -- apply list_elem_of_singleton in Hr as ->.
           apply elem_of_union. right. now apply elem_of_singleton.
      * unfold merge_frame. simpl. repeat split; try reflexivity.
        apply union_subseteq_l.
      * rewrite length_app. simpl. lia.
    + apply String.eqb_neq in Hst.
      split; [|split; [|split]].
      * constructor; unfold dispatched in *; simpl; try assumption.
        rewrite filter_app, fmap_app, <- Hokay.
        rewrite filter_cons_False by exact Hst. simpl. rewrite app_nil_r. reflexivity.
      * simpl. intros r Hr Hok. apply elem_of_app in Hr as [Hr | Hr].
        -- apply Hnd; assumption.
        -- apply list_elem_of_singleton in Hr as ->. contradiction.
      * unfold merge_frame. simpl. repeat split; reflexivity.
      * rewrite length_app. simpl. lia.
Qed.

Lemma dedup_fold_spec (results : list Result) :
  ∀ (st : State) (nd_results : list Result),
    Inv st →
    phase_ok (files_done (sess st)) (PhWriting WSeqSummary [] nd_results) →
    let st' := fst (foldl dedup_result (st, nd_results) results) in
    let nd' := snd (foldl dedup_result (st, nd_results) results) in
    Inv st'
    ∧ phase_ok (files_done (sess st')) (PhWriting WSeqSummary [] nd')
    ∧ merge_frame st st'.
Proof.
  induction results as [|r rs IH]; intros st nd HI Hnd; cbv zeta; cbn [foldl].
  - split; [assumption|]. split; [assumption|]. apply merge_frame_refl.
  - pose proof (dedup_result_spec st nd r HI Hnd) as Hs. cbv zeta in Hs.
    destruct (dedup_result (st, nd) r) as [st1 nd1] eqn:Hstep.
    cbn [fst snd] in Hs. destruct Hs as (HI1 & Hnd1 & Hf1 & _).
    pose proof (IH st1 nd1 HI1 Hnd1) as Hs. cbv zeta in Hs.
    destruct Hs as (HI2 & Hnd2 & Hf2).
    split; [exact HI2|]. split; [exact Hnd2|].
    eapply merge_frame_trans; eassumption.
Qed.

Lemma dedup_results_spec (results : list Result) (st : State) :
  Inv st →
  Inv (fst (dedup_results results st))
  ∧ phase_ok (files_done (sess (fst (dedup_results results st))))
      (PhWriting WSeqSummary [] (snd (dedup_results results st)))
  ∧ merge_frame st (fst (dedup_results results st)).
Proof.
  intros HI. apply (dedup_fold_spec results st [] HI).
  simpl. intros r Hr. inversion Hr.
Qed.

(** ** Every event preserves the invariant *)

Lemma batch_swallow_Inv (batchid : Z) (st : State) :
  Inv st → Inv (batch_swallow batchid st).
Proof.
  intros HI. unfold batch_swallow.
  apply batch_goto_Inv; [exact I|]. apply batch_finally_Inv, HI.
Qed.

Lemma batch_unhandled_Inv (batchid : Z) (exc : Exc) (st : State) :
  Inv st → Inv (batch_unhandled batchid exc st).
Proof.
  intros HI. unfold batch_unhandled.
  apply batch_goto_Inv; [exact I|].
  apply batch_finally_Inv, errx_Inv, logger_error_Inv, HI.
Qed.

Lemma batch_raised_Inv (batchid : Z) (exc : Exc) (st : State) :
  Inv st → Inv (batch_raised batchid exc st).
Proof.
  intros HI. unfold batch_raised.
  case_if; [apply batch_swallow_Inv | apply batch_unhandled_Inv]; exact HI.
Qed.

Lemma log_lines_Inv (lines : list string) :
  ∀ st, Inv st → Inv (foldl (λ acc line, logger_error line acc) st lines).
Proof.
  induction lines as [|line lines IH]; intros st HI; simpl; [exact HI|].
  apply IH, logger_error_Inv, HI.
Qed.

Lemma batch_sentinel_Inv (batchid : Z) (error_message traceback : string) (st : State) :
  Inv st → Inv (batch_sentinel batchid error_message traceback st).
Proof.
  intros HI. unfold batch_sentinel.
  apply batch_goto_Inv; [exact I|].
  apply batch_finally_Inv, errx_Inv, log_lines_Inv, logger_error_Inv, HI.
Qed.

Lemma batch_complete_Inv (batchid : Z) (nd_results : list Result) (st : State) :
  Inv st → Inv (batch_complete batchid nd_results st).
Proof.
  intros HI. unfold batch_complete.
  apply batch_goto_Inv; [exact I|].
  apply batch_count_Inv, batch_finally_Inv, HI.
Qed.

Lemma run_process_batch_begin_Inv (config : Config) (batchid : Z) (st : State) :
  Inv st → Inv (run_process_batch_begin config batchid st).
Proof.
  intros HI. unfold run_process_batch_begin.
  destruct (batch_phase batchid st) as [[]|]; try exact HI.
  case_if; apply batch_goto_Inv; try exact I; [exact HI|].
  apply upd_active_Inv, HI.
Qed.

Lemma run_process_batch_slept_Inv (batchid : Z) (r : Awaited unit) (st : State) :
  Inv st → Inv (run_process_batch_slept batchid r st).
Proof.
  intros HI. unfold run_process_batch_slept.
  destruct (batch_phase batchid st) as [[]|]; try exact HI.
  destruct r; apply batch_goto_Inv; try exact I; try exact HI.
  apply upd_active_Inv, HI.
Qed.

Lemma run_process_batch_computed_Inv (config : Config) (batchid : Z)
    (r : Awaited BatchOutcome) (st : State) :
  Inv st → Inv (run_process_batch_computed config batchid r st).
Proof.
  intros HI. unfold run_process_batch_computed.
  destruct (batch_phase batchid st) as [[]|]; try exact HI.
  destruct r as [[results | marker msg tb] | | exc].
  - destruct (dedup_results_spec results st HI) as (HI1 & Hnd & _).
    destruct (dedup_results results st) as [st1 nd]. cbn [fst snd] in *.
    destruct nd as [|r0 nd]; [apply batch_complete_Inv, HI1|].
    destruct (enabled_writers config) as [|w later];
      [apply batch_complete_Inv, HI1|].
    apply batch_goto_Inv; [exact Hnd | exact HI1].
  - case_bool_decide; [apply batch_sentinel_Inv | apply batch_unhandled_Inv]; exact HI.
  - apply batch_swallow_Inv, HI.
  - apply batch_raised_Inv, HI.
Qed.

Lemma batch_phase_lookup (batchid : Z) (st : State) (ph : BatchPhase) :
  batch_phase batchid st = Some ph →
  ∃ files, batch_lookup batchid (tasks st) = Some (files, ph).
Proof.
  unfold batch_phase. destruct (batch_lookup batchid (tasks st)) as [[files p]|];
    simpl; [|discriminate].
  intros [= <-]. eauto.
Qed.

Lemma run_process_batch_written_Inv (batchid : Z) (r : Awaited unit) (feed : PyResult unit)
    (st : State) :
  Inv st → Inv (run_process_batch_written batchid r feed st).
Proof.
  intros HI. unfold run_process_batch_written.
  destruct (batch_phase batchid st) as [ph|] eqn:Hph; [|exact HI].
  destruct ph as [| | |w later nd|]; try exact HI.
  apply batch_phase_lookup in Hph as [files Hlook].
  pose proof (batch_lookup_writing _ _ _ _ _ (inv_writing _ HI) Hlook) as Hnd.
  destruct r as [[]| |exc].
  - destruct later as [|w' later'].
    + destruct feed; [apply batch_complete_Inv | apply batch_raised_Inv]; exact HI.
    + apply batch_goto_Inv; [exact Hnd | exact HI].
  - apply batch_swallow_Inv, HI.
  - apply batch_raised_Inv, HI.
Qed.

Lemma queue_all_Inv (config : Config) (dirname : string) (files : list string) :
  ∀ st, Inv st →
    Inv (foldl (λ acc filename,
                  queue_processing config (PyStr.path_join dirname filename) acc)
           st files).
Proof.
  induction files as [|f files IH]; intros st HI; simpl; [exact HI|].
  apply IH, queue_processing_Inv, HI.
Qed.

Lemma scan_dir_recursive_listed_Inv (config : Config) (dirname : string)
    (r : Awaited (list string)) (st : State) :
  Inv st → Inv (scan_dir_recursive_listed config dirname r st).
Proof.
  intros HI. unfold scan_dir_recursive_listed. case_if; [|exact HI].
  destruct r as [files| |exc].
  - apply queue_all_Inv, HI.
  - apply return_from_Inv, HI.
  - case_if; [apply return_from_Inv|]; apply errx_Inv, HI.
Qed.

Lemma scan_dir_recursive_end_Inv (st : State) : Inv st → Inv (scan_dir_recursive_end st).
Proof.
  intros HI. unfold scan_dir_recursive_end. case_if; [|exact HI].
  apply return_from_Inv, set_scan_finished_Inv, flush_jobstack_Inv, HI.
Qed.

Lemma live_event_Inv (config : Config) (topdir : string)
    (event : option InotifyEvent) (st : State) :
  Inv st → Inv (live_event config topdir event st).
Proof.
  intros HI. unfold live_event. destruct event as [ev|]; [|exact HI].
  repeat case_if; try exact HI.
  - apply errprint_Inv, HI.
  - apply queue_processing_Inv, set_forced_flush_counter_Inv, HI.
Qed.

Lemma step_Inv (config : Config) (topdir : string) (forcedflush : Z)
    (st : State) (ev : Event) :
  Inv st → Inv (step config topdir forcedflush st ev).
Proof.
  intros HI. destruct ev; simpl.
  - apply stop_Inv, HI.
  - apply scan_dir_recursive_listed_Inv, HI.
  - apply scan_dir_recursive_end_Inv, HI.
  - case_if; [|exact HI]. unfold live_monitor_inputs. case_if; [|exact HI].
    destruct r; try (apply return_from_Inv, HI). apply live_event_Inv, HI.
  - case_if; [exact HI|]. unfold monitor_progresses. case_if; [|exact HI].
    destruct r; try (apply return_from_Inv, HI).
    case_if; [apply return_from_Inv|]; exact HI.
  - case_if; [|exact HI]. unfold monitor_progresses_live_head. repeat case_if; try exact HI.
    + frame st. apply HI.
    + apply return_from_Inv, HI.
  - case_if; [|exact HI]. unfold monitor_progresses_live_wake. case_if; [|exact HI].
    destruct r; try (apply return_from_Inv, HI).
    case_if; [|exact HI].
    apply flush_jobstack_Inv, set_forced_flush_counter_Inv, HI.
  - apply run_process_batch_begin_Inv, HI.
  - apply run_process_batch_slept_Inv, HI.
  - apply run_process_batch_computed_Inv, HI.
  - apply run_process_batch_written_Inv, HI.
Qed.

Lemma create_task_plain_Inv (c : Coroutine) (st : State) :
  batch_of {| coroutine := c; cancel_requests := 0 |} = None →
  Inv st → Inv (create_task c st).
Proof.
  intros Hc HI. frame st; unfold dispatched, create_task; simpl.
  - rewrite batches_snoc, Hc. apply app_nil_r.
  - apply Forall_app. split; [apply HI|].
    repeat constructor. unfold writing_ok. simpl.
    destruct c; try exact I. discriminate.
Qed.

Lemma show_message_Inv (config : Config) (message : string) (st : State) :
  Inv st → Inv (show_message config message st).
Proof. intros HI. unfold show_message. case_if; [exact HI|]. frame st. apply HI. Qed.

Lemma empty_state_Inv : Inv empty_state.
Proof.
  constructor; simpl; try reflexivity; try constructor; try lia.
Qed.

Lemma run_start_Inv (config : Config) : Inv (run_start config).
Proof.
  unfold run_start.
  repeat case_if;
    repeat first [ apply create_task_plain_Inv; [reflexivity|]
                 | apply show_message_Inv ];
    apply empty_state_Inv.
Qed.

Lemma run_events_Inv (config : Config) (topdir : string) (forcedflush : Z)
    (evs : list Event) :
  ∀ st, Inv st → Inv (run_events config topdir forcedflush evs st).
Proof.
  unfold run_events. induction evs as [|ev evs IH]; intros st HI; simpl; [exact HI|].
  apply IH, step_Inv, HI.
Qed.

Lemma reachable_Inv (config : Config) (topdir : string) (forcedflush : Z)
    (st : State) :
  reachable config topdir forcedflush st → Inv st.
Proof. intros [evs ->]. apply run_events_Inv, run_start_Inv. Qed.

(** ** A stopped session dispatches nothing *)










Lemma dedup_result_frame (st : State) (nd_results : list Result) (result : Result) :
  merge_frame st (fst (dedup_result (st, nd_results) result)).
Proof.
  unfold dedup_result. repeat case_if; unfold merge_frame; simpl;
    repeat split; try reflexivity; apply union_subseteq_l.
Qed.

Lemma dedup_results_frame (results : list Result) (st : State) :
  merge_frame st (fst (dedup_results results st)).
Proof.
  unfold dedup_results. generalize (@nil Result). revert st.
  induction results as [|r rs IH]; intros st nd; cbn [foldl].
  - apply merge_frame_refl.
  - pose proof (dedup_result_frame st nd r) as Hr.
    destruct (dedup_result (st, nd) r) as [st1 nd1].
    eapply merge_frame_trans; [exact Hr|]. apply IH.
Qed.


Lemma log_lines_eq (lines : list string) :
  ∀ st, foldl (λ acc line, logger_error line acc) st lines
        = set_log_errors (log_errors st ++ lines) st.
Proof.
  induction lines as [|line lines IH]; intros st; simpl.
  - destruct st. unfold set_log_errors. simpl. now rewrite app_nil_r.
  - rewrite IH. unfold logger_error, set_log_errors. simpl.
    now rewrite <- app_assoc.
Qed.









(** ** What a flush does *)

Lemma length_filter_done (done : gset string) (l : list string) :
  Z.of_nat (length l) - Z.of_nat (length (filter (λ f, f ∉ done) l))
  = Z.of_nat (length (filter (λ f, f ∈ done) l)).
Proof.
  induction l as [|f l IH]; [reflexivity|].
  destruct (decide (f ∈ done)) as [Hin | Hout].
  - rewrite (filter_cons_True (λ f, f ∈ done)) by exact Hin.
    rewrite (filter_cons_False (λ f, f ∉ done)) by tauto.
    simpl length. lia.
  - rewrite (filter_cons_False (λ f, f ∈ done)) by exact Hout.
    rewrite (filter_cons_True (λ f, f ∉ done)) by exact Hout.
    simpl length. lia.
Qed.

Lemma flush_jobstack_effect (st : State) :
  running (sess st) = true →
  jobstack (sess st) ≠ [] →
  let fresh := filter (λ f, f ∉ files_done (sess st)) (jobstack (sess st)) in
  let dups := filter (λ f, f ∈ files_done (sess st)) (jobstack (sess st)) in
  next_batch_id (sess (flush_jobstack st)) = next_batch_id (sess st) + 1
  ∧ reads_queued (sess (flush_jobstack st))
    = reads_queued (sess st) - Z.of_nat (length dups)
  ∧ reads_found (sess (flush_jobstack st))
    = reads_found (sess st) - Z.of_nat (length dups)
  ∧ duplicates_canceled (flush_jobstack st)
    = duplicates_canceled st + Z.of_nat (length dups)
  ∧ jobstack (sess (flush_jobstack st)) = []
  ∧ dispatched (flush_jobstack st)
    = dispatched st ++ (if bool_decide (fresh = []) then []
                        else [(next_batch_id (sess st), fresh)]).
Proof.
  intros Hrun Hjob fresh dups. unfold flush_jobstack.
  rewrite Hrun, (bool_decide_eq_false_2 _ Hjob). simpl.
  fold fresh. rewrite (length_filter_done (files_done (sess st))). fold dups.
  unfold dispatched, create_task.
  destruct (bool_decide (fresh = [])); case_bool_decide; simpl;
    rewrite ?batches_snoc, ?app_nil_r; simpl; repeat split; try reflexivity; lia.
Qed.

(** ** Counters *)

(** C1, amended: in every reachable state [reads_queued] is
    [reads_found - reads_processed].  The cancelled duplicates are already
    taken out of [reads_found], which is the number of [queue_processing]
    calls minus the occurrences cancelled at flush and at merge time. *)
Theorem C1_counter_equation (config : Config) (topdir : string) (forcedflush : Z)
    (st : State) :
  reachable config topdir forcedflush st →
  reads_queued (sess st) = reads_found (sess st) - reads_processed (sess st)
  ∧ reads_found (sess st) = discovered st - duplicates_canceled st
  ∧ reads_queued (sess st)
    = discovered st - reads_processed (sess st) - duplicates_canceled st.
Proof.
  intros Hreach. apply reachable_Inv in Hreach. inv_fields Hreach.
  repeat split; lia.
Qed.

Lemma C1_counter_equation_witness :
  let st := run_events Ex.live_config Ex.topdir Ex.forcedflush Ex.watch_then_scan
              (run_start Ex.live_config) in
  reachable Ex.live_config Ex.topdir Ex.forcedflush st
  ∧ reads_queued (sess st) = reads_found (sess st) - reads_processed (sess st).
Proof.
  intros st.
  assert (Hreach : reachable Ex.live_config Ex.topdir Ex.forcedflush st)
    by (exists Ex.watch_then_scan; reflexivity).
  exact (conj Hreach
           (proj1 (C1_counter_equation Ex.live_config Ex.topdir Ex.forcedflush st Hreach))).
Defined.

(** C1 as stated fails once a duplicate was cancelled: [a.fast5] is
    processed from the watch, found again by the scan and cancelled at
    flush time.  All batches have settled, the counters are 0 queued,
    1 found, 1 processed, 1 cancelled, and 0 is not 1 - 1 - 1. *)
Lemma C1_duplicates_subtracted_twice :
  let st := run_events Ex.live_config Ex.topdir Ex.forcedflush Ex.watch_then_scan
              (run_start Ex.live_config) in
  reachable Ex.live_config Ex.topdir Ex.forcedflush st
  ∧ all_settled st
  ∧ reads_queued (sess st) = 0
  ∧ reads_found (sess st) = 1
  ∧ reads_processed (sess st) = 1
  ∧ duplicates_canceled st = 1
  ∧ reads_queued (sess st)
    ≠ reads_found (sess st) - reads_processed (sess st) - duplicates_canceled st.
Proof.
  intros st.
  split; [exists Ex.watch_then_scan; reflexivity|].
  split; [vm_compute; repeat constructor|].
  assert (Hq : reads_queued (sess st) = 0) by (vm_compute; reflexivity).
  assert (Hf : reads_found (sess st) = 1) by (vm_compute; reflexivity).
  assert (Hp : reads_processed (sess st) = 1) by (vm_compute; reflexivity).
  assert (Hd : duplicates_canceled st = 1) by (vm_compute; reflexivity).
  repeat (split; [assumption|]). rewrite Hq, Hf, Hp, Hd. discriminate.
Qed.

(** ** The done set *)



(** ** Batch ids *)

(** C3, amended: the ids of the dispatched batches are strictly
    increasing, never negative and below [next_batch_id], so none is used
    twice; the first flush takes id 0.  Every flush of a running session
    with a non-empty buffer advances [next_batch_id] by exactly 1, also
    when nothing is left after filtering and no batch is dispatched. *)
Theorem C3_batch_ids (config : Config) (topdir : string) (forcedflush : Z)
    (st : State) :
  reachable config topdir forcedflush st →
  next_batch_id (sess (run_start config)) = 0
  ∧ StronglySorted Z.lt (dispatched st).*1
  ∧ NoDup (dispatched st).*1
  ∧ Forall (λ i, 0 ≤ i < next_batch_id (sess st)) (dispatched st).*1
  ∧ (running (sess st) = true → jobstack (sess st) ≠ [] →
     let fresh := filter (λ f, f ∉ files_done (sess st)) (jobstack (sess st)) in
     next_batch_id (sess (flush_jobstack st)) = next_batch_id (sess st) + 1
     ∧ dispatched (flush_jobstack st)
       = dispatched st ++ (if bool_decide (fresh = []) then []
                           else [(next_batch_id (sess st), fresh)])).
Proof.
  intros Hreach. apply reachable_Inv in Hreach. inv_fields Hreach.
  split.
  { unfold run_start, create_task, show_message. repeat case_if; reflexivity. }
  split; [exact Hsorted|]. split.
  { clear -Hsorted. induction Hsorted as [|i ids Hs IH Hall]; constructor.
    - intros Hin. rewrite Forall_forall in Hall. apply Hall in Hin. lia.
    - exact IH. }
  split; [exact Hbound|].
  intros Hrun Hjob fresh.
  destruct (flush_jobstack_effect st Hrun Hjob) as (Hn & _ & _ & _ & _ & Hd).
  split; [exact Hn | exact Hd].
Qed.

Lemma C3_batch_ids_witness :
  let st := run_events Ex.live_config Ex.topdir Ex.forcedflush Ex.watch_then_scan_two
              (run_start Ex.live_config) in
  reachable Ex.live_config Ex.topdir Ex.forcedflush st
  ∧ StronglySorted Z.lt (dispatched st).*1.
Proof.
  intros st.
  assert (Hreach : reachable Ex.live_config Ex.topdir Ex.forcedflush st)
    by (exists Ex.watch_then_scan_two; reflexivity).
  split; [exact Hreach|].
  exact (proj1 (proj2 (C3_batch_ids Ex.live_config Ex.topdir Ex.forcedflush st Hreach))).
Defined.

(** C3 as stated fails: the flush that finds only the already-done
    [a.fast5] in the buffer takes id 1 and dispatches nothing; the next
    batch gets id 2, so the dispatched ids are 0 and 2. *)
Lemma C3_dropped_batch_leaves_gap :
  let st := run_events Ex.live_config Ex.topdir Ex.forcedflush Ex.watch_then_scan_two
              (run_start Ex.live_config) in
  reachable Ex.live_config Ex.topdir Ex.forcedflush st
  ∧ dispatched st = [(0, ["a.fast5"]); (2, ["b.fast5"])]
  ∧ (dispatched st).*1 ≠ seqZ 0 (Z.of_nat (length (dispatched st))).
Proof.
  intros st.
  split; [exists Ex.watch_then_scan_two; reflexivity|].
  assert (Hd : dispatched st = [(0, ["a.fast5"]); (2, ["b.fast5"])])
    by (vm_compute; reflexivity).
  split; [exact Hd|]. rewrite Hd. vm_compute. discriminate.
Qed.

(** ** Faults *)

Lemma batch_lookup_phase (batchid : Z) (st : State) (files : list string)
    (ph : BatchPhase) :
  batch_lookup batchid (tasks st) = Some (files, ph) →
  batch_phase batchid st = Some ph.
Proof. unfold batch_phase. now intros ->. Qed.

Lemma batch_lookup_cancel (batchid : Z) (ts : list Task) :
  (snd <$> batch_lookup batchid (map cancel ts) = Some PhReturned)
  ↔ (snd <$> batch_lookup batchid ts = Some PhReturned).
Proof.
  induction ts as [|t ts IH]; simpl; [reflexivity|].
  unfold cancel at 1. destruct (coroutine_done (coroutine t)) eqn:Hdone; simpl.
  - destruct (coroutine t); try exact IH. case_bool_decide; [reflexivity | exact IH].
  - destruct (coroutine t) as [| | |b fs ph]; try exact IH.
    case_bool_decide; [|exact IH]. simpl.
    destruct ph; simpl in *; try discriminate; reflexivity.
Qed.

Lemma batch_lookup_goto (batchid : Z) (ph : BatchPhase) (ts : list Task) :
  is_Some (batch_lookup batchid ts) →
  snd <$> batch_lookup batchid (map (set_phase batchid ph) ts) = Some ph.
Proof.
  induction ts as [|t ts IH]; simpl; [intros [? [=]]|].
  unfold set_phase at 1.
  destruct (coroutine t) as [| | |b fs p] eqn:Hc; simpl; rewrite ?Hc; try exact IH.
  case_bool_decide as Hb; simpl; rewrite ?Hc.
  - rewrite bool_decide_eq_true_2 by exact Hb. reflexivity.
  - rewrite bool_decide_eq_false_2 by exact Hb. exact IH.
Qed.




Example worker_fault_log :
  let exc := {| exc_type := "OSError"; exc_str := "unreadable" |} in
  let st := run_events Ex.config Ex.topdir Ex.forcedflush
              (Ex.unreadable_batch
               ++ [EvBatchComputed 0
                     (Got (Sentinel (-1) (unhandled_message exc) (Ex.print_exc exc)));
                   EvScanListed EmptyString (Got ["c.fast5"; "d.fast5"]); EvScanEnd])
              (run_start Ex.config) in
  log_errors st = ["Unhandled exception OSError: unreadable";
                   "Traceback (most recent call last):"; "OSError: unreadable"]
  ∧ (dispatched st).*1 = [0]
  ∧ running (sess st) = false.
Proof. vm_compute. repeat split; reflexivity. Qed.



Example writer_failure_counters :
  let st := run_events Ex.config Ex.topdir Ex.forcedflush
              (Ex.two_files_one_gone
               ++ [EvBatchWritten 0 (Raised Ex.disk_full) (Return tt)])
              (run_start Ex.config) in
  elements (files_done (sess st)) = ["a.fast5"]
  ∧ reads_processed (sess st) = 0
  ∧ reads_queued (sess st) = 2
  ∧ reads_found (sess st) = 2
  ∧ active_batches (sess st) = 0
  ∧ running (sess st) = false.
Proof. vm_compute. repeat split; reflexivity. Qed.

(** * Further properties of the pipeline and its command line *)

(** ** Every event is a sequence of elementary updates *)

Lemma batch_lookup_map_cancel (batchid : Z) (ts : list Task) :
  batch_lookup batchid (map cancel ts) = batch_lookup batchid ts.
Proof.
  induction ts as [|t ts IH]; simpl; [reflexivity|].
  unfold cancel at 1. destruct (coroutine_done (coroutine t)); simpl;
    destruct (coroutine t); try exact IH; case_bool_decide; auto.
Qed.

Lemma stop_lookup (signalname : string) (batchid : Z) (st : State) :
  batch_lookup batchid (tasks (stop signalname st)) = batch_lookup batchid (tasks st).
Proof.
  unfold stop. destruct (running (sess st)); simpl; apply batch_lookup_map_cancel.
Qed.

Lemma errx_lookup (message : string) (batchid : Z) (st : State) :
  batch_lookup batchid (tasks (errx message st)) = batch_lookup batchid (tasks st).
Proof.
  unfold errx. destruct (running (sess st)); [|reflexivity].
  now rewrite stop_lookup.
Qed.

Lemma startswith_append (p s : string) : PyStr.startswith (p +:+ s) p = true.
Proof.
  induction p as [|c p IH]; simpl; [now destruct s|].
  now rewrite Ascii.eqb_refl.
Qed.

Lemma errx_updates (config : Config) (message : string) (st : State) :
  PyStr.startswith message "ERROR: " = true → rtc (update config) st (errx message st).
Proof.
  intros Hm. unfold errx. case_if; [|reflexivity].
  eapply rtc_l; [apply U_errprint, Hm|]. apply rtc_once, U_stop.
Qed.

Lemma queue_processing_push (config : Config) (filepath : string) (st : State) :
  queue_processing config filepath st
  = if Z.of_nat (length (jobstack (sess (push filepath st))))
       >=? cfg_batch_chunk_size config
    then flush_jobstack (push filepath st) else push filepath st.
Proof. reflexivity. Qed.

Lemma queue_processing_updates (config : Config) (filepath : string) (st : State) :
  rtc (update config) st (queue_processing config filepath st).
Proof. apply rtc_once, U_queue. Qed.

Lemma queue_all_updates (config : Config) (dirname : string) (files : list string) :
  ∀ st, rtc (update config) st
          (foldl (λ acc filename,
                    queue_processing config (PyStr.path_join dirname filename) acc)
             st files).
Proof.
  induction files as [|f files IH]; intros st; simpl; [reflexivity|].
  etrans; [apply queue_processing_updates|]. apply IH.
Qed.

Lemma dedup_results_updates (config : Config) (results : list Result) (st : State) :
  rtc (update config) st (fst (dedup_results results st)).
Proof.
  unfold dedup_results. generalize (@nil Result). revert st.
  induction results as [|r rs IH]; intros st nd; cbn [foldl]; [reflexivity|].
  pose proof (U_dedup config r nd st) as Hu.
  destruct (dedup_result (st, nd) r) as [st1 nd1]. cbn [fst] in Hu.
  eapply rtc_l; [exact Hu|]. apply IH.
Qed.

Lemma log_lines_updates (config : Config) (lines : list string) :
  ∀ st, rtc (update config) st (foldl (λ acc line, logger_error line acc) st lines).
Proof.
  induction lines as [|line lines IH]; intros st; simpl; [reflexivity|].
  eapply rtc_l; [apply U_logger_error|]. apply IH.
Qed.

Lemma log_lines_lookup (lines : list string) (batchid : Z) (st : State) :
  batch_lookup batchid (tasks (foldl (λ acc line, logger_error line acc) st lines))
  = batch_lookup batchid (tasks st).
Proof. now rewrite log_lines_eq. Qed.

Lemma batch_swallow_updates (config : Config) (batchid : Z) (files : list string) (ph : BatchPhase)
    (st : State) :
  batch_lookup batchid (tasks st) = Some (files, ph) →
  phase_active ph = true →
  rtc (update config) st (batch_swallow batchid st).
Proof. intros Hl Ha. apply rtc_once. eapply U_leave; eassumption. Qed.

Lemma batch_unhandled_updates (config : Config) (batchid : Z) (files : list string) (ph : BatchPhase)
    (exc : Exc) (st : State) :
  batch_lookup batchid (tasks st) = Some (files, ph) →
  phase_active ph = true →
  rtc (update config) st (batch_unhandled batchid exc st).
Proof.
  intros Hl Ha. unfold batch_unhandled.
  eapply rtc_l; [apply (U_logger_error config "Unhandled error during processing reads")|].
  etrans; [apply (errx_updates config ("ERROR: Unhandled error " +:+ exc_str exc));
           apply (startswith_append "ERROR: ")|].
  apply rtc_once. eapply U_leave; [|exact Ha]. rewrite errx_lookup. exact Hl.
Qed.

Lemma batch_raised_updates (config : Config) (batchid : Z) (files : list string) (ph : BatchPhase)
    (exc : Exc) (st : State) :
  batch_lookup batchid (tasks st) = Some (files, ph) →
  phase_active ph = true →
  rtc (update config) st (batch_raised batchid exc st).
Proof.
  intros Hl Ha. unfold batch_raised.
  case_if; [eapply batch_swallow_updates | eapply batch_unhandled_updates];
    eassumption.
Qed.

Lemma batch_sentinel_updates (config : Config) (batchid : Z) (files : list string) (ph : BatchPhase)
    (error_message traceback : string) (st : State) :
  batch_lookup batchid (tasks st) = Some (files, ph) →
  phase_active ph = true →
  rtc (update config) st (batch_sentinel batchid error_message traceback st).
Proof.
  intros Hl Ha. unfold batch_sentinel.
  eapply rtc_l; [apply (U_logger_error config error_message)|].
  etrans; [apply log_lines_updates|].
  etrans; [apply (errx_updates config ("ERROR: " +:+ error_message));
           apply startswith_append|].
  apply rtc_once. eapply U_leave; [|exact Ha].
  rewrite errx_lookup, log_lines_lookup. exact Hl.
Qed.

Lemma batch_complete_updates (config : Config) (batchid : Z) (files : list string) (ph : BatchPhase)
    (nd_results : list Result) (st : State) :
  batch_lookup batchid (tasks st) = Some (files, ph) →
  phase_active ph = true →
  rtc (update config) st (batch_complete batchid nd_results st).
Proof.
  intros Hl Ha.
  change (batch_complete batchid nd_results st)
    with (batch_count nd_results (batch_goto batchid PhReturned (batch_finally st))).
  eapply rtc_l; [eapply U_leave; eassumption|]. apply rtc_once, U_count.
Qed.

Lemma dedup_results_lookup (results : list Result) (batchid : Z) (st : State) :
  batch_lookup batchid (tasks (fst (dedup_results results st)))
  = batch_lookup batchid (tasks st).
Proof.
  destruct (dedup_results_frame results st) as (_ & _ & _ & _ & _ & -> & _).
  reflexivity.
Qed.

Theorem step_updates (config : Config) (topdir : string) (forcedflush : Z)
    (st : State) (ev : Event) :
  rtc (update config) st (step config topdir forcedflush st ev).
Proof.
  destruct ev; simpl.
  - apply rtc_once, U_stop.
  - unfold scan_dir_recursive_listed. case_if; [|reflexivity].
    destruct r as [files| |exc].
    + apply queue_all_updates.
    + apply rtc_once, U_return.
    + assert (Hx : rtc (update config) st (errx ("ERROR: " +:+ exc_str exc) st))
        by (apply errx_updates, startswith_append).
      case_if; [|exact Hx]. eapply rtc_r; [exact Hx | apply U_return].
  - unfold scan_dir_recursive_end. case_if; [|reflexivity].
    eapply rtc_l; [apply U_flush|]. eapply rtc_l; [apply U_scan_finished|].
    apply rtc_once, U_return.
  - case_if; [|reflexivity]. unfold live_monitor_inputs. case_if; [|reflexivity].
    destruct r as [event| |exc]; try (apply rtc_once, U_return).
    unfold live_event. destruct event as [ev|]; [|reflexivity].
    repeat case_if; try reflexivity;
      lazymatch goal with
      | |- rtc (update _) _ (errprint _ _) =>
          apply rtc_once, U_errprint, (startswith_append "ERROR: ")
      | |- rtc (update _) _ (queue_processing _ _ _) =>
          eapply rtc_l; [apply U_watchdog_reset | apply queue_processing_updates]
      end.
  - case_if; [reflexivity|]. unfold monitor_progresses. case_if; [|reflexivity].
    destruct r; try (apply rtc_once, U_return).
    case_if; [apply rtc_once, U_return | reflexivity].
  - case_if; [|reflexivity]. unfold monitor_progresses_live_head.
    case_if; [|reflexivity].
    case_if; [|apply rtc_once, U_return].
    case_if; [apply rtc_once, U_watchdog_tick | reflexivity].
  - case_if; [|reflexivity]. unfold monitor_progresses_live_wake.
    case_if; [|reflexivity].
    destruct r; try (apply rtc_once, U_return).
    case_if; [|reflexivity].
    eapply rtc_l; [apply U_watchdog_reset | apply rtc_once, U_flush].
  - unfold run_process_batch_begin.
    destruct (batch_phase batchid st) as [ph|] eqn:Hph; [|reflexivity].
    apply batch_phase_lookup in Hph as [files Hl].
    destruct ph; try reflexivity.
    case_if; apply rtc_once; [eapply U_sleep | eapply U_enter]; eauto.
  - unfold run_process_batch_slept.
    destruct (batch_phase batchid st) as [ph|] eqn:Hph; [|reflexivity].
    apply batch_phase_lookup in Hph as [files Hl].
    destruct ph; try reflexivity.
    destruct r; apply rtc_once; [eapply U_enter | eapply U_abandon ..]; eauto.
  - unfold run_process_batch_computed.
    destruct (batch_phase batchid st) as [ph|] eqn:Hph; [|reflexivity].
    apply batch_phase_lookup in Hph as [files Hl].
    destruct ph; try reflexivity.
    destruct r as [[results | marker msg tb] | | exc].
    + pose proof (dedup_results_updates config results st) as Hd.
      pose proof (dedup_results_lookup results batchid st) as Hl1.
      rewrite Hl in Hl1.
      destruct (dedup_results results st) as [st1 nd]. cbn [fst] in *.
      etrans; [exact Hd|].
      destruct nd as [|r0 nd];
        [eapply batch_complete_updates; [exact Hl1 | reflexivity]|].
      destruct (enabled_writers config) as [|w later];
        [eapply batch_complete_updates; [exact Hl1 | reflexivity]|].
      apply rtc_once. eapply U_write; [exact Hl1 | reflexivity].
    + case_bool_decide;
        [eapply batch_sentinel_updates | eapply batch_unhandled_updates];
        first [exact Hl | reflexivity].
    + eapply batch_swallow_updates; [exact Hl | reflexivity].
    + eapply batch_raised_updates; [exact Hl | reflexivity].
  - unfold run_process_batch_written.
    destruct (batch_phase batchid st) as [ph|] eqn:Hph; [|reflexivity].
    apply batch_phase_lookup in Hph as [files Hl].
    destruct ph as [| | |w later nd|]; try reflexivity.
    destruct r as [[]| |exc].
    + destruct later as [|w' later'].
      * destruct feed;
          [eapply batch_complete_updates | eapply batch_raised_updates];
          first [exact Hl | reflexivity].
      * apply rtc_once. eapply U_write; [exact Hl | reflexivity].
    + eapply batch_swallow_updates; [exact Hl | reflexivity].
    + eapply batch_raised_updates; [exact Hl | reflexivity].
Qed.

Lemma run_events_updates (config : Config) (topdir : string) (forcedflush : Z)
    (evs : list Event) :
  ∀ st, rtc (update config) st (run_events config topdir forcedflush evs st).
Proof.
  unfold run_events. induction evs as [|ev evs IH]; intros st; simpl; [reflexivity|].
  etrans; [apply step_updates|]. apply IH.
Qed.

(** An invariant of the elementary updates holds in every reachable
    state. *)
Lemma update_invariant (P : State → Prop) (config : Config) (topdir : string)
    (forcedflush : Z) (st : State) :
  (∀ st st', update config st st' → P st → P st') →
  P (run_start config) →
  reachable config topdir forcedflush st → P st.
Proof.
  intros Hupd Hstart [evs ->].
  pose proof (run_events_updates config topdir forcedflush evs (run_start config)) as Hr.
  induction Hr as [|st1 st2 st3 Hu _ IH]; [exact Hstart|].
  apply IH. eapply Hupd; eassumption.
Qed.

(** ** Batches in flight *)

Lemma count_active_cons (t : Task) (ts : list Task) :
  count_active (t :: ts) = (if task_active t then 1 else 0) + count_active ts.
Proof.
  unfold count_active. rewrite filter_cons.
  destruct (task_active t); case_decide; try congruence; simpl length; lia.
Qed.

Lemma count_active_map (f : Task → Task) (ts : list Task) :
  (∀ t, task_active (f t) = task_active t) →
  count_active (map f ts) = count_active ts.
Proof.
  intros Hf. induction ts as [|t ts IH]; [reflexivity|].
  cbn [map]. rewrite !count_active_cons, Hf, IH. reflexivity.
Qed.

Lemma count_active_snoc (ts : list Task) (t : Task) :
  count_active (ts ++ [t]) = count_active ts + (if task_active t then 1 else 0).
Proof.
  induction ts as [|t0 ts IH]; simpl.
  - rewrite count_active_cons. unfold count_active. simpl. lia.
  - rewrite !count_active_cons, IH. lia.
Qed.

Lemma task_active_cancel (t : Task) : task_active (cancel t) = task_active t.
Proof. unfold cancel. case_if; reflexivity. Qed.

Lemma task_active_return_task (k : Kind) (t : Task) :
  task_active (return_task k t) = task_active t.
Proof.
  unfold return_task, task_active.
  destruct k, (coroutine t) eqn:Hc; simpl; rewrite ?Hc; reflexivity.
Qed.

Lemma set_phase_other (batchid : Z) (ph : BatchPhase) (ts : list Task) :
  batchid ∉ (batches ts).*1 → map (set_phase batchid ph) ts = ts.
Proof.
  induction ts as [|t ts IH]; intros Hout; [reflexivity|].
  cbn [map]. unfold batches in *. cbn [omap list_omap] in Hout.
  unfold set_phase at 1. unfold batch_of at 1 in Hout.
  destruct (coroutine t) as [| | |b fs p] eqn:Hc.
  1-3: f_equal; apply IH, Hout.
  rewrite fmap_cons in Hout. apply not_elem_of_cons in Hout as [Hne Hout].
  simpl in Hne. rewrite bool_decide_eq_false_2 by congruence.
  f_equal. apply IH, Hout.
Qed.

Lemma count_active_set_phase (batchid : Z) (ph old : BatchPhase)
    (files : list string) (ts : list Task) :
  NoDup (batches ts).*1 →
  batch_lookup batchid ts = Some (files, old) →
  count_active (map (set_phase batchid ph) ts)
  = count_active ts - (if phase_active old then 1 else 0)
    + (if phase_active ph then 1 else 0).
Proof.
  induction ts as [|t ts IH]; intros Hnd Hl; [discriminate|].
  cbn [map]. rewrite !count_active_cons.
  unfold batches in Hnd. cbn [omap list_omap] in Hnd.
  remember (map (set_phase batchid ph) ts) as rest eqn:Hrest.
  destruct t as [c n]. unfold set_phase, task_active, batch_of in *. simpl in *.
  destruct c as [| | |b fs p]; simpl in *.
  1-3: rewrite (IH Hnd Hl); lia.
  apply NoDup_cons in Hnd as [Hout Hnd].
  case_bool_decide as Hb; simpl.
  - subst b. injection Hl as <- <-.
    fold (set_phase batchid ph) in Hrest.
    rewrite set_phase_other in Hrest by exact Hout. subst rest. lia.
  - rewrite (IH Hnd Hl). lia.
Qed.

Lemma sorted_ids_NoDup (ids : list Z) : StronglySorted Z.lt ids → NoDup ids.
Proof.
  induction 1 as [|i ids Hs IH Hall]; constructor; [|exact IH].
  intros Hin. rewrite Forall_forall in Hall. apply Hall in Hin. lia.
Qed.

Lemma batch_goto_accounted (batchid : Z) (ph old : BatchPhase) (files : list string)
    (d : Z) (st : State) :
  batch_lookup batchid (tasks st) = Some (files, old) →
  d = (if phase_active ph then 1 else 0) - (if phase_active old then 1 else 0) →
  active_accounted st →
  active_accounted
    (batch_goto batchid ph
       (upd_sess (λ s, set_active_batches (active_batches s + d) s) st)).
Proof.
  intros Hl Hd (Hs & Hb & Hn & Ha).
  unfold active_accounted, dispatched, batch_goto. simpl.
  rewrite (batches_map _ _ (batch_of_set_phase batchid ph)).
  split; [exact Hs|]. split; [exact Hb|]. split; [exact Hn|].
  rewrite (count_active_set_phase _ _ _ _ _ (sorted_ids_NoDup _ Hs) Hl).
  unfold dispatched in *. lia.
Qed.

Lemma upd_active_zero (st : State) :
  upd_sess (λ s, set_active_batches (active_batches s + 0) s) st = st.
Proof.
  destruct st as [[] ]. unfold upd_sess, set_sess, set_active_batches. simpl.
  now rewrite Z.add_0_r.
Qed.

Lemma flush_accounted (st : State) :
  active_accounted st → active_accounted (flush_jobstack st).
Proof.
  intros (Hs & Hb & Hn & Ha). unfold active_accounted, dispatched in *.
  unfold flush_jobstack. case_if; [|auto].
  destruct (ids_snoc _ _ Hs Hb Hn) as [Hs' Hb'].
  assert (Hb'' : Forall (λ i, 0 ≤ i < next_batch_id (sess st) + 1)
                   (batches (tasks st)).*1).
  { eapply Forall_impl; [exact Hb|]. simpl. intros; lia. }
  repeat case_bool_decide; unfold create_task; simpl;
    rewrite ?batches_snoc, ?count_active_snoc; simpl; rewrite ?fmap_app; simpl;
    repeat split; auto; lia.
Qed.

Lemma update_accounted (config : Config) (st st' : State) :
  update config st st' → active_accounted st → active_accounted st'.
Proof.
  intros Hu HA. pose proof HA as (Hs & Hb & Hn & Ha).
  destruct Hu;
    try (rewrite queue_processing_push;
         case_if; [apply flush_accounted|]; exact HA);
    try (apply flush_accounted, HA);
    unfold active_accounted, dispatched in *;
    try (destruct (dedup_result_frame st nd_results result)
           as (_ & _ & Hact & Hnext & _ & Ht & _);
         rewrite Ht, Hact, Hnext; tauto);
    simpl.
  - auto.
  - auto.
  - unfold stop. case_if; simpl;
      rewrite (batches_map _ _ batch_of_cancel),
        (count_active_map _ _ task_active_cancel); auto.
  - auto.
  - auto.
  - auto.
  - auto.
  - rewrite (batches_map _ _ (batch_of_return_task k)),
      (count_active_map _ _ (task_active_return_task k)). auto.
  - rewrite <- (upd_active_zero st).
    eapply (batch_goto_accounted batchid PhSleeping PhCreated); eauto.
  - rewrite <- (upd_active_zero st).
    eapply (batch_goto_accounted batchid PhReturned PhSleeping); eauto.
  - eapply (batch_goto_accounted batchid PhComputing ph); eauto.
    destruct H0; subst ph; reflexivity.
  - rewrite <- (upd_active_zero st).
    eapply (batch_goto_accounted batchid (PhWriting w later nd_results) ph); eauto.
    rewrite H0. reflexivity.
  - eapply (batch_goto_accounted batchid PhReturned ph files (-1)); eauto.
    rewrite H0. reflexivity.
Qed.

Lemma run_start_accounted (config : Config) : active_accounted (run_start config).
Proof.
  unfold run_start, active_accounted, dispatched, create_task, show_message.
  repeat case_if; simpl; repeat split; try constructor; try lia; reflexivity.
Qed.

Lemma settled_count (ts : list Task) :
  Forall (λ t, match coroutine t with
               | CoBatch _ _ ph => ph = PhReturned
               | _ => True
               end) ts →
  count_active ts = 0.
Proof.
  induction 1 as [|t ts Ht _ IH]; [reflexivity|].
  rewrite count_active_cons, IH. unfold task_active.
  destruct (coroutine t); try reflexivity. now subst.
Qed.

(** X1: [active_batches] is the number of batch coroutines that have
    passed [active_batches += 1] and not yet their [finally] clause; it is
    never negative, and it is 0 once every batch has returned, whether it
    completed, failed or was cancelled. *)
Theorem X1_active_batches_balanced (config : Config) (topdir : string)
    (forcedflush : Z) (st : State) :
  reachable config topdir forcedflush st →
  active_batches (sess st) = count_active (tasks st)
  ∧ 0 ≤ active_batches (sess st)
  ∧ (all_settled st → active_batches (sess st) = 0).
Proof.
  intros Hreach.
  assert (HA : active_accounted st).
  { eapply (update_invariant active_accounted);
      [|apply run_start_accounted|exact Hreach].
    intros s s'. apply update_accounted. }
  destruct HA as (_ & _ & _ & Ha).
  split; [exact Ha|]. split.
  - rewrite Ha. unfold count_active. lia.
  - intros Hset. rewrite Ha. apply settled_count, Hset.
Qed.

Lemma X1_active_batches_balanced_witness :
  let st := run_events Ex.config Ex.topdir Ex.forcedflush Ex.two_files_one_gone
              (run_start Ex.config) in
  reachable Ex.config Ex.topdir Ex.forcedflush st
  ∧ active_batches (sess st) = 1
  ∧ active_batches (sess st) = count_active (tasks st).
Proof.
  intros st.
  assert (Hreach : reachable Ex.config Ex.topdir Ex.forcedflush st)
    by (exists Ex.two_files_one_gone; reflexivity).
  assert (Hone : active_batches (sess st) = 1) by (vm_compute; reflexivity).
  exact (conj Hreach (conj Hone
    (proj1 (X1_active_batches_balanced Ex.config Ex.topdir Ex.forcedflush st Hreach)))).
Defined.

(** ** The history of a session *)

Lemma grows_refl (st : State) : grows st st.
Proof. unfold grows. repeat split; auto; reflexivity. Qed.

Lemma grows_trans (st1 st2 st3 : State) :
  grows st1 st2 → grows st2 st3 → grows st1 st3.
Proof.
  intros (H1 & H2 & H3 & H4 & H5 & H6 & H7 & H8 & H9)
         (K1 & K2 & K3 & K4 & K5 & K6 & K7 & K8 & K9).
  unfold grows. repeat split; try (etrans; eassumption); try congruence; auto.
Qed.

Lemma prefix_snoc {A : Type} (l k : list A) : l `prefix_of` l ++ k.
Proof. now exists k. Qed.

Lemma flush_grows (st : State) : grows st (flush_jobstack st).
Proof.
  unfold flush_jobstack. case_if; [|apply grows_refl].
  unfold grows, dispatched, create_task.
  repeat case_bool_decide; simpl; rewrite ?batches_snoc; simpl;
    repeat split; auto; try reflexivity; try lia; apply prefix_snoc.
Qed.

Lemma update_grows (config : Config) (st st' : State) :
  update config st st' → grows st st'.
Proof.
  intros Hu.
  destruct Hu;
    try (rewrite queue_processing_push;
         apply (grows_trans _ (push filepath st));
         [unfold grows, dispatched; simpl; repeat split; auto; reflexivity
         |case_if; [apply flush_grows | apply grows_refl]]);
    try apply flush_grows;
    try (unfold dedup_result; repeat case_if; unfold grows, dispatched; simpl;
         repeat split; auto; try reflexivity; apply union_subseteq_l);
    unfold grows, dispatched; simpl;
    rewrite ?(batches_map _ _ (batch_of_return_task _)),
      ?(batches_map _ _ (batch_of_set_phase _ _));
    repeat split; auto; try reflexivity; try lia; try apply prefix_snoc.
  all: unfold stop; case_if; simpl; rewrite ?(batches_map _ _ batch_of_cancel);
    auto; try reflexivity; try apply prefix_snoc.
Qed.

(** X2: whatever happens, the session only moves forward: [files_done],
    [reads_processed], [next_batch_id], the list of batches created, the
    error stream and the log only grow, no inventory is written while
    events are handled, a stopped session is never running again and
    [scan_finished] is never taken back. *)
Theorem X2_history_grows (config : Config) (topdir : string) (forcedflush : Z)
    (evs : list Event) (st : State) :
  grows st (run_events config topdir forcedflush evs st).
Proof.
  pose proof (run_events_updates config topdir forcedflush evs st) as Hr.
  induction Hr as [st|st1 st2 st3 Hu _ IH]; [apply grows_refl|].
  eapply grows_trans; [eapply update_grows, Hu | exact IH].
Qed.

(** ** The notice of [stop] *)

Lemma notices_snoc (m : string) (st : State) :
  notices (errprint m st)
  = (notices st + if bool_decide (m = termination_notice) then 1 else 0)%nat.
Proof.
  unfold notices, errprint. simpl. rewrite filter_app, length_app.
  rewrite filter_cons. case_decide; case_bool_decide; try contradiction; reflexivity.
Qed.

Lemma error_is_no_notice (m : string) :
  PyStr.startswith m "ERROR: " = true → m ≠ termination_notice.
Proof. intros Hm ->. vm_compute in Hm. discriminate. Qed.

Lemma update_notices (config : Config) (st st' : State) :
  update config st st' →
  notices st = running_cleared st → notices st' = running_cleared st'.
Proof.
  intros Hu Hn.
  destruct Hu;
    try (destruct (queue_processing_frame config filepath st)
           as (_ & _ & _ & _ & _ & _ & He & _ & Hc & _);
         unfold notices; rewrite He, Hc; exact Hn);
    try (destruct (flush_jobstack_frame st)
           as (_ & _ & _ & _ & _ & _ & He & _ & Hc & _);
         unfold notices; rewrite He, Hc; exact Hn);
    try (destruct (dedup_result_frame st nd_results result)
           as (_ & _ & _ & _ & _ & _ & He & _ & Hc & _);
         unfold notices; rewrite He, Hc; exact Hn);
    try exact Hn.
  - rewrite notices_snoc, bool_decide_eq_false_2 by now apply error_is_no_notice.
    simpl. rewrite Hn. unfold errprint. simpl. lia.
  - unfold stop. case_if; [|exact Hn].
    change (notices (errprint termination_notice st) = S (running_cleared st)).
    rewrite notices_snoc, bool_decide_eq_true_2 by reflexivity. lia.
Qed.

(** X3: the notice [Termination in process] is on the error stream exactly
    once when the session is stopped and not at all while it is running,
    however often [stop] and [errx] were called. *)
Theorem X3_notice_once (config : Config) (topdir : string) (forcedflush : Z)
    (st : State) :
  reachable config topdir forcedflush st →
  notices st = if running (sess st) then 0%nat else 1%nat.
Proof.
  intros Hreach.
  rewrite <- (inv_cleared _ (reachable_Inv _ _ _ _ Hreach)).
  eapply (update_invariant (λ s, notices s = running_cleared s));
    [|  |exact Hreach].
  - intros s s'. apply update_notices.
  - unfold run_start, create_task, show_message. repeat case_if; reflexivity.
Qed.

Lemma X3_notice_once_witness :
  let st := stop "SIGTERM"
              (run_events Ex.config Ex.topdir Ex.forcedflush Ex.interrupted
                 (run_start Ex.config)) in
  reachable Ex.config Ex.topdir Ex.forcedflush st
  ∧ loop_stop_calls st = 2%nat
  ∧ notices st = 1%nat.
Proof.
  intros st.
  assert (Hreach : reachable Ex.config Ex.topdir Ex.forcedflush st)
    by (exists (Ex.interrupted ++ [EvSignal "SIGTERM"]); reflexivity).
  assert (Hcalls : loop_stop_calls st = 2%nat) by (vm_compute; reflexivity).
  assert (Hrun : running (sess st) = false) by (vm_compute; reflexivity).
  pose proof (X3_notice_once Ex.config Ex.topdir Ex.forcedflush st Hreach) as Hn.
  rewrite Hrun in Hn. exact (conj Hreach (conj Hcalls Hn)).
Defined.

(** ** Batch sizes *)

Lemma batch_limit_pos (config : Config) : 1 ≤ batch_limit config.
Proof. unfold batch_limit. lia. Qed.

Lemma flush_bounded (config : Config) (st : State) :
  (running (sess st) = true →
   Z.of_nat (length (jobstack (sess st))) ≤ batch_limit config) →
  (running (sess st) = true →
   Z.of_nat (length (jobstack (sess st))) < batch_limit config
   ∨ flush_jobstack st ≠ st) →
  Forall (λ b, b.2 ≠ [] ∧ Z.of_nat (length b.2) ≤ batch_limit config) (dispatched st) →
  batches_bounded config (flush_jobstack st).
Proof.
  intros Hlen Hstrict Hall. pose proof (batch_limit_pos config) as Hpos.
  unfold batches_bounded.
  destruct (running (sess st) && negb (bool_decide (jobstack (sess st) = [])))
    eqn:Hgo.
  - apply andb_prop in Hgo as [Hrun Hne]. specialize (Hlen Hrun).
    apply negb_true_iff, bool_decide_eq_false_1 in Hne.
    destruct (flush_jobstack_effect st Hrun Hne) as (_ & _ & _ & _ & -> & ->).
    split; [simpl; lia|].
    apply Forall_app. split; [exact Hall|].
    case_bool_decide as Hfresh; constructor; [|constructor].
    simpl. split; [exact Hfresh|].
    pose proof (length_filter (λ f, f ∉ files_done (sess st)) (jobstack (sess st))).
    lia.
  - unfold flush_jobstack in *. rewrite Hgo in *. split; [|exact Hall].
    intros Hrun. destruct (Hstrict Hrun) as [Hlt | Hne]; [exact Hlt | congruence].
Qed.

Lemma update_bounded (config : Config) (st st' : State) :
  update config st st' → batches_bounded config st → batches_bounded config st'.
Proof.
  intros Hu [Hjob Hall]. pose proof (batch_limit_pos config) as Hpos.
  assert (Hframe : ∀ s, (running (sess s) = true → running (sess st) = true) →
            jobstack (sess s) = jobstack (sess st) →
            dispatched s = dispatched st → batches_bounded config s).
  { intros s Hr Hj Hd. unfold batches_bounded. rewrite Hj, Hd. auto. }
  destruct Hu;
    try (apply Hframe; unfold dispatched; simpl;
         rewrite ?(batches_map _ _ (batch_of_return_task _)),
           ?(batches_map _ _ (batch_of_set_phase _ _));
         auto; fail).
  - unfold batches_bounded, stop, dispatched in *.
    case_if; simpl; rewrite (batches_map _ _ batch_of_cancel);
      (split; [|exact Hall]); intros Hr; first [discriminate | congruence].
  - rewrite queue_processing_push.
    assert (Hlen : length (jobstack (sess (push filepath st)))
                   = S (length (jobstack (sess st))))
      by (simpl; rewrite length_app; simpl; lia).
    destruct (Z.of_nat (length (jobstack (sess (push filepath st))))
              >=? cfg_batch_chunk_size config) eqn:Hchunk.
    + apply flush_bounded.
      * intros Hrun. rewrite Hlen. specialize (Hjob Hrun). lia.
      * intros Hrun. right. intros Heq.
        assert (Hne : jobstack (sess (push filepath st)) ≠ []).
        { simpl. intros Hnil. apply app_eq_nil in Hnil as [_ Hnil]. discriminate. }
        destruct (flush_jobstack_effect _ Hrun Hne) as (_ & _ & _ & _ & Hj & _).
        rewrite Heq in Hj. contradiction.
      * exact Hall.
    + split; [|exact Hall]. intros _. rewrite Hlen in *.
      rewrite Z.geb_leb in Hchunk. apply Z.leb_gt in Hchunk. unfold batch_limit. lia.
  - apply flush_bounded; [|auto|exact Hall].
    intros Hrun. specialize (Hjob Hrun). lia.
  - destruct (dedup_result_frame st nd_results result)
      as (Hr & _ & _ & _ & Hj & Ht & _).
    apply Hframe; [congruence | exact Hj | unfold dispatched; now rewrite Ht].
Qed.

(** X4: every batch handed to the workers has at least one file and at
    most [batch_chunk_size] files (one file when the chunk size is below
    1), and while the session is running the pending buffer is shorter
    than that. *)
Theorem X4_batch_sizes (config : Config) (topdir : string) (forcedflush : Z)
    (st : State) :
  reachable config topdir forcedflush st →
  Forall (λ b, b.2 ≠ [] ∧ Z.of_nat (length b.2) ≤ Z.max 1 (cfg_batch_chunk_size config))
    (dispatched st)
  ∧ (running (sess st) = true →
     Z.of_nat (length (jobstack (sess st))) < Z.max 1 (cfg_batch_chunk_size config)).
Proof.
  intros Hreach.
  assert (HB : batches_bounded config st).
  { eapply (update_invariant (batches_bounded config)); [| |exact Hreach].
    - intros s s'. apply update_bounded.
    - unfold run_start, batches_bounded, dispatched, create_task, show_message,
        batch_limit.
      repeat case_if; simpl; split; try constructor; intros; lia. }
  destruct HB as [Hjob Hall]. split; [exact Hall | exact Hjob].
Qed.

Lemma X4_batch_sizes_witness :
  let st := run_events Ex.config Ex.topdir Ex.forcedflush Ex.interrupted
              (run_start Ex.config) in
  reachable Ex.config Ex.topdir Ex.forcedflush st
  ∧ dispatched st = [(0, ["a.fast5"; "b.fast5"])]
  ∧ Forall (λ b, b.2 ≠ [] ∧ Z.of_nat (length b.2) ≤ 2) (dispatched st).
Proof.
  intros st.
  assert (Hreach : reachable Ex.config Ex.topdir Ex.forcedflush st)
    by (exists Ex.interrupted; reflexivity).
  assert (Hd : dispatched st = [(0, ["a.fast5"; "b.fast5"])])
    by (vm_compute; reflexivity).
  exact (conj Hreach (conj Hd
    (proj1 (X4_batch_sizes Ex.config Ex.topdir Ex.forcedflush st Hreach)))).
Defined.

(** ** Nothing is lost between the buffer and the batches *)

Lemma flush_pipeline_files (st : State) :
  pipeline_files (flush_jobstack st) = pipeline_files st.
Proof.
  destruct (running (sess st) && negb (bool_decide (jobstack (sess st) = [])))
    eqn:Hgo.
  - apply andb_prop in Hgo as [Hrun Hne].
    apply negb_true_iff, bool_decide_eq_false_1 in Hne.
    unfold pipeline_files.
    destruct (flush_jobstack_effect st Hrun Hne) as (_ & _ & _ & _ & -> & ->).
    destruct (flush_jobstack_frame st) as (_ & -> & _).
    case_bool_decide as Hfresh; simpl.
    + rewrite Hfresh, !app_nil_r. reflexivity.
    + rewrite fmap_app, concat_app. simpl. rewrite !app_nil_r. reflexivity.
  - unfold flush_jobstack. now rewrite Hgo.
Qed.

Lemma queue_pipeline_files (config : Config) (filepath : string) (st : State) :
  pipeline_files (queue_processing config filepath st)
  = pipeline_files st ++ filter (λ f, f ∉ files_done (sess st)) [filepath].
Proof.
  assert (Hpush : pipeline_files (push filepath st)
                  = pipeline_files st
                    ++ filter (λ f, f ∉ files_done (sess st)) [filepath]).
  { unfold pipeline_files, dispatched. simpl. rewrite filter_app, app_assoc.
    reflexivity. }
  rewrite queue_processing_push. case_if; [rewrite flush_pipeline_files|];
    exact Hpush.
Qed.

(** X5: batching neither loses, repeats nor reorders files.  After any
    number of [queue_processing] calls, the files of the batches created,
    followed by the pending files that are not done, are those from
    before followed by the queued paths that are not done, in queue
    order; a flush moves files from the buffer into a batch and changes
    nothing else of this sequence. *)
Theorem X5_batching_keeps_order (config : Config) (paths : list string) (st : State) :
  let st' := foldl (λ acc f, queue_processing config f acc) st paths in
  files_done (sess st') = files_done (sess st)
  ∧ pipeline_files st'
    = pipeline_files st ++ filter (λ f, f ∉ files_done (sess st)) paths
  ∧ pipeline_files (flush_jobstack st') = pipeline_files st'.
Proof.
  cbv zeta. split; [|split; [|apply flush_pipeline_files]].
  - revert st. induction paths as [|f paths IH]; intros st; simpl; [reflexivity|].
    rewrite IH. apply (queue_processing_frame config f st).
  - revert st. induction paths as [|f paths IH]; intros st; simpl.
    + now rewrite app_nil_r.
    + rewrite IH, queue_pipeline_files.
      destruct (queue_processing_frame config f st) as (_ & -> & _).
      rewrite <- app_assoc. f_equal.
      rewrite (filter_cons _ f paths), (filter_cons _ f []).
      case_decide; reflexivity.
Qed.

(** ** What a batch returns *)

Section WorkerResults.
Context {A : Type} `{SignalAnalyzer A}.
Variable path_exists : string → bool.
Variable print_exc : Exc → string.

Lemma analyze_reads_results (inputdir : string) (reads : list string) :
  ∀ analyzer calls results analyzer' calls' results',
    analyze_reads path_exists inputdir analyzer calls results reads
      = (analyzer', calls', Return results') →
    ∃ new,
      results' = results ++ new
      ∧ length new = length reads
      ∧ calls' = calls ++ filter (λ f, path_exists (PyStr.path_join inputdir f) = true) reads
      ∧ ∀ i f, reads !! i = Some f →
          path_exists (PyStr.path_join inputdir f) = false →
          new !! i = Some (disappeared f).
Proof.
  induction reads as [|f5file rest IH]; simpl;
    intros analyzer calls results analyzer' calls' results' Hrun.
  - injection Hrun as _ <- <-. exists []. rewrite !app_nil_r.
    repeat split. intros i f Hi. inversion Hi.
  - destruct (path_exists (PyStr.path_join inputdir f5file)) eqn:Hex.
    + unfold process_file in Hrun.
      destruct (an_process analyzer f5file) as [analyzer1 [r|e]]; [|discriminate].
      destruct (IH _ _ _ _ _ _ Hrun) as (new & -> & Hlen & -> & Hgone).
      exists (r :: new). rewrite <- !app_assoc. simpl.
      rewrite filter_cons_True by exact Hex.
      repeat split; [now rewrite Hlen|].
      intros [|i] f Hi Hf; simpl in *; [|eauto]. congruence.
    + destruct (IH _ _ _ _ _ _ Hrun) as (new & -> & Hlen & -> & Hgone).
      exists (disappeared f5file :: new). rewrite <- !app_assoc. simpl.
      rewrite filter_cons_False by (rewrite Hex; discriminate).
      repeat split; [now rewrite Hlen|].
      intros [|i] f Hi Hf; simpl in *; [|eauto]. congruence.
Qed.

Lemma assign_labels_keeps (barcode_assg : gmap string Z) (results : list Result) :
  ∀ labelled,
    assign_labels barcode_assg results = Return labelled →
    Forall2 (λ r r',
               filename r' = filename r ∧ status r' = status r
               ∧ read_id r' = read_id r
               ∧ ∃ rid, read_id r = Some rid
                        ∧ label r' = match barcode_assg !! rid with
                                     | Some l => Some l
                                     | None => label r
                                     end)
      results labelled.
Proof.
  induction results as [|res rest IH]; simpl; intros labelled Hrun.
  - injection Hrun as <-. constructor.
  - destruct (read_id res) as [rid|] eqn:Hrid; [|discriminate].
    destruct (assign_labels barcode_assg rest) as [rest'|e]; [|discriminate].
    injection Hrun as <-. constructor; [|apply IH; reflexivity].
    destruct (barcode_assg !! rid) eqn:Hassg; simpl;
      (split; [reflexivity|]; split; [reflexivity|]; split; [reflexivity|]);
      exists rid; rewrite Hassg; split; first [exact Hrid | reflexivity].
Qed.

(** X6: when [process_batch] returns results, there is one per read in
    the batch, the analyzer was called on exactly the files that still
    existed, in batch order, and without barcoding the result at the
    position of a vanished file is the [disappeared] dictionary.  With
    barcoding, results only come back when no file had vanished and every
    result carries a [read_id]. *)
Theorem X6_batch_results (batchid : Z) (reads : list string) (config : Config)
    (results : list Result) :
  process_batch path_exists print_exc batchid reads config = Return (Results results) →
  length results = length reads
  ∧ analyzer_calls path_exists batchid reads config
    = filter (λ f, path_exists (PyStr.path_join (cfg_inputdir config) f) = true) reads
  ∧ (cfg_barcoding config = false →
     ∀ i f, reads !! i = Some f →
       path_exists (PyStr.path_join (cfg_inputdir config) f) = false →
       results !! i = Some (disappeared f))
  ∧ (cfg_barcoding config = true →
     Forall (λ f, path_exists (PyStr.path_join (cfg_inputdir config) f) = true) reads
     ∧ Forall (λ r, is_Some (read_id r)) results).
Proof.
  unfold process_batch, analyzer_calls, process_batch_try, with_body.
  destruct (an_enter config batchid) as [analyzer|e]; [|discriminate].
  destruct (analyze_reads _ _ _ _ _ _) as [[analyzer' calls] [raw|e]] eqn:Hrun.
  2: { simpl. destruct (an_exit analyzer'); discriminate. }
  destruct (analyze_reads_results _ _ _ _ _ _ _ _ Hrun)
    as (new & Hraw & Hlen & Hcalls & Hgone).
  simpl in Hraw, Hcalls. subst raw calls.
  destruct (cfg_barcoding config) eqn:Hbar; simpl.
  - destruct (an_predict_barcode_labels analyzer') as [assg|e]; simpl.
    2: { destruct (an_exit analyzer'); discriminate. }
    destruct (assign_labels assg new) as [labelled|e] eqn:Hlab; simpl.
    2: { destruct (an_exit analyzer'); discriminate. }
    destruct (an_exit analyzer'); simpl; [|discriminate].
    intros [= <-]. pose proof (assign_labels_keeps _ _ _ Hlab) as Hkeep.
    split; [rewrite <- Hlen; symmetry; eapply Forall2_length, Hkeep|].
    split; [reflexivity|]. split; [discriminate|]. intros _. split.
    + apply Forall_forall. intros f Hf.
      destruct (path_exists (PyStr.path_join (cfg_inputdir config) f)) eqn:Hex;
        [reflexivity|].
      apply list_elem_of_lookup in Hf as [i Hi].
      pose proof (Hgone i f Hi Hex) as Hnew.
      destruct (Forall2_lookup_l _ _ _ _ _ Hkeep Hnew) as (r' & _ & _ & _ & _ & rid & Hrid & _).
      discriminate.
    + apply Forall_forall. intros r' Hr'.
      apply list_elem_of_lookup in Hr' as [i Hi].
      destruct (Forall2_lookup_r _ _ _ _ _ Hkeep Hi)
        as (r & _ & _ & _ & Hid & rid & Hrid & _).
      rewrite Hid, Hrid. eauto.
  - destruct (an_exit analyzer'); simpl; [|discriminate].
    intros [= <-]. split; [exact Hlen|]. split; [reflexivity|].
    split; [intros _; exact Hgone | discriminate].
Qed.

(** X7: the barcoding loop changes nothing but labels.  When it goes
    through, every result keeps its filename, status and read id, a result
    whose read id is in the predicted mapping gets that label, and any
    other result keeps the label it had. *)
Theorem X7_labels_only (barcode_assg : gmap string Z) (results labelled : list Result) :
  assign_labels barcode_assg results = Return labelled →
  length labelled = length results
  ∧ ∀ i r, results !! i = Some r →
      ∃ r' rid,
        labelled !! i = Some r'
        ∧ filename r' = filename r ∧ status r' = status r
        ∧ read_id r' = Some rid ∧ read_id r = Some rid
        ∧ label r' = match barcode_assg !! rid with
                     | Some l => Some l
                     | None => label r
                     end.
Proof.
  intros Hlab. pose proof (assign_labels_keeps _ _ _ Hlab) as Hkeep.
  split; [symmetry; eapply Forall2_length, Hkeep|].
  intros i r Hi.
  destruct (Forall2_lookup_l _ _ _ _ _ Hkeep Hi)
    as (r' & Hr' & Hf & Hs & Hid & rid & Hrid & Hl).
  exists r', rid. rewrite Hid, Hrid. repeat split; auto.
Qed.

End WorkerResults.

Lemma X6_batch_results_witness :
  process_batch (A:=unit) Ex.only_a Ex.print_exc 0 ["a.fast5"; "gone.fast5"] Ex.config
  = Return (Results [Ex.okay "a.fast5"; disappeared "gone.fast5"])
  ∧ analyzer_calls (A:=unit) Ex.only_a 0 ["a.fast5"; "gone.fast5"] Ex.config
    = filter (λ f, Ex.only_a (PyStr.path_join (cfg_inputdir Ex.config) f) = true)
        ["a.fast5"; "gone.fast5"].
Proof.
  assert (Hrun : process_batch (A:=unit) Ex.only_a Ex.print_exc 0
                   ["a.fast5"; "gone.fast5"] Ex.config
                 = Return (Results [Ex.okay "a.fast5"; disappeared "gone.fast5"]))
    by (vm_compute; reflexivity).
  exact (conj Hrun
    (proj1 (proj2 (X6_batch_results Ex.only_a Ex.print_exc 0
                     ["a.fast5"; "gone.fast5"] Ex.config _ Hrun)))).
Defined.

Lemma X7_labels_only_witness :
  assign_labels {[ "a.fast5" := 3 ]} [Ex.okay "a.fast5"; Ex.okay "b.fast5"]
  = Return [set_label (Ex.okay "a.fast5") 3; Ex.okay "b.fast5"]
  ∧ length [set_label (Ex.okay "a.fast5") 3; Ex.okay "b.fast5"]
    = length [Ex.okay "a.fast5"; Ex.okay "b.fast5"].
Proof.
  assert (Hrun : assign_labels {[ "a.fast5" := 3 ]}
                   [Ex.okay "a.fast5"; Ex.okay "b.fast5"]
                 = Return [set_label (Ex.okay "a.fast5") 3; Ex.okay "b.fast5"])
    by (vm_compute; reflexivity).
  exact (conj Hrun (proj1 (X7_labels_only _ _ _ Hrun))).
Defined.

(** ** Listing a directory *)

Lemma scan_worker_fold (isdir : string → bool) (dirname suffix : string)
    (listdir : list string) :
  ∀ dirs files,
    foldl (λ acc entryname,
             let '(dirs, files) := acc in
             if PyStr.startswith entryname "." then (dirs, files)
             else if isdir (PyStr.path_join dirname entryname)
                  then (dirs ++ [entryname], files)
             else if PyStr.endswith (PyStr.lower entryname) suffix
                  then (dirs, files ++ [entryname])
             else (dirs, files))
      (dirs, files) listdir
    = (dirs ++ filter (λ e, PyStr.startswith e "." = false
                            ∧ isdir (PyStr.path_join dirname e) = true) listdir,
       files ++ filter (λ e, PyStr.startswith e "." = false
                             ∧ isdir (PyStr.path_join dirname e) = false
                             ∧ PyStr.endswith (PyStr.lower e) suffix = true) listdir).
Proof.
  induction listdir as [|e listdir IH]; intros dirs files; simpl.
  - now rewrite !app_nil_r.
  - rewrite !filter_cons.
    destruct (PyStr.startswith e ".") eqn:Hhidden;
      [|destruct (isdir (PyStr.path_join dirname e)) eqn:Hdir;
        [|destruct (PyStr.endswith (PyStr.lower e) suffix) eqn:Hsuffix]];
      rewrite IH; repeat case_decide; try (exfalso; intuition congruence);
      rewrite <- ?app_assoc; reflexivity.
Qed.

(** X8: [scan_dir_recursive_worker] returns, in listing order, the
    directories whose name does not start with a dot, and the other
    entries whose name does not start with a dot and ends with the suffix
    whatever the case of its letters.  A directory is never returned as a
    file, also when its name ends with the suffix. *)
Theorem X8_scan_worker (listdir : list string) (isdir : string → bool)
    (dirname suffix : string) :
  let result := scan_dir_recursive_worker listdir isdir dirname suffix in
  result.1 = filter (λ e, PyStr.startswith e "." = false
                          ∧ isdir (PyStr.path_join dirname e) = true) listdir
  ∧ result.2 = filter (λ e, PyStr.startswith e "." = false
                            ∧ isdir (PyStr.path_join dirname e) = false
                            ∧ PyStr.endswith (PyStr.lower e) suffix = true) listdir
  ∧ (∀ e, e ∈ result.1 → e ∉ result.2)
  ∧ (∀ e, e ∈ result.1 ∨ e ∈ result.2 → e ∈ listdir ∧ PyStr.startswith e "." = false).
Proof.
  cbv zeta. unfold scan_dir_recursive_worker. rewrite scan_worker_fold. simpl.
  split; [reflexivity|]. split; [reflexivity|]. split.
  - intros e Hd Hf. apply list_elem_of_filter in Hd as [[_ Hd] _].
    apply list_elem_of_filter in Hf as [(_ & Hf & _) _]. congruence.
  - intros e [He | He]; apply list_elem_of_filter in He; tauto.
Qed.

Example scan_worker_listing :
  scan_dir_recursive_worker [".hidden.fast5"; "pass"; "A.FAST5"; "notes.txt"; "x.fast5"]
    (λ p, String.eqb p "run1/pass" || String.eqb p "run1/x.fast5") "run1" FAST5_SUFFIX
  = (["pass"; "x.fast5"], ["A.FAST5"]).
Proof. reflexivity. Qed.

(** ** Events of the live watch *)

(** X9: an event that is empty, is about a directory, has neither the
    close-after-write nor the moved-into flag, or whose file name does not
    end with the suffix has no effect at all. *)
Theorem X9_event_ignored (config : Config) (topdir : string)
    (event : option InotifyEvent) (st : State) :
  match event with
  | None => True
  | Some ev => qualifying ev = false
  end →
  live_event config topdir event st = st.
Proof.
  destruct event as [ev|]; [|reflexivity].
  unfold qualifying, live_event. intros Hq.
  destruct (bool_decide ("IN_ISDIR" ∈ ev_type_names ev)); [reflexivity|].
  simpl in Hq. now rewrite Hq.
Qed.

Lemma X9_event_ignored_witness :
  let ev := {| ev_mask := IN_CLOSE_WRITE; ev_type_names := ["IN_CLOSE_WRITE"];
               ev_path := "/data/"; ev_filename := "notes.txt" |} in
  qualifying ev = false
  ∧ live_event Ex.live_config Ex.topdir (Some ev) (run_start Ex.live_config)
    = run_start Ex.live_config.
Proof.
  intros ev.
  assert (Hq : qualifying ev = false) by reflexivity.
  exact (conj Hq
    (X9_event_ignored Ex.live_config Ex.topdir (Some ev) (run_start Ex.live_config) Hq)).
Defined.

Lemma append_assoc (a b c : string) : (a +:+ b) +:+ c = a +:+ b +:+ c.
Proof.
  induction a as [|x a IH]; [reflexivity|].
  change (String x ((a +:+ b) +:+ c) = String x (a +:+ b +:+ c)). now rewrite IH.
Qed.

Lemma append_empty_r (a : string) : a +:+ EmptyString = a.
Proof.
  induction a as [|x a IH]; [reflexivity|].
  change (String x (a +:+ EmptyString) = String x a). now rewrite IH.
Qed.

Lemma startswith_split (s p : string) :
  PyStr.startswith s p = true → s = p +:+ PyStr.drop (String.length p) s.
Proof.
  revert s. induction p as [|c p IH]; intros s Hs; [reflexivity|].
  destruct s as [|d s]; [discriminate|]. simpl in *.
  destruct (Ascii.eqb c d) eqn:Hc; [|discriminate].
  apply Ascii.eqb_eq in Hc as ->.
  change (String d s = String d (p +:+ PyStr.drop (String.length p) s)).
  f_equal. apply IH, Hs.
Qed.

Lemma endswith_slash_cons (c : ascii) (s : string) :
  s ≠ EmptyString → PyStr.endswith (String c s) "/" = PyStr.endswith s "/".
Proof.
  destruct s as [|d s]; [congruence|]. intros _.
  unfold PyStr.endswith. simpl String.length.
  replace (S (S (String.length s)) - 1)%nat with (S (String.length s)) by lia.
  replace (S (String.length s) - 1)%nat with (String.length s) by lia.
  reflexivity.
Qed.

Lemma endswith_slash_append (a b : string) :
  b ≠ EmptyString → PyStr.endswith (a +:+ b) "/" = PyStr.endswith b "/".
Proof.
  intros Hb. induction a as [|c a IH]; [reflexivity|].
  change (PyStr.endswith (String c (a +:+ b)) "/" = PyStr.endswith b "/").
  rewrite endswith_slash_cons; [exact IH|].
  destruct a; [exact Hb | discriminate].
Qed.

(** X10: for an event inside the watched root, the path that is queued,
    put behind the root again, is the absolute path of the file: the root
    is cut off and nothing else.  The root ends with a slash, as
    [live_monitor_inputs] makes it. *)
Theorem X10_relpath_under_root (topdir : string) (ev : InotifyEvent) :
  PyStr.endswith topdir "/" = true →
  PyStr.startswith (ev_path ev) topdir = true →
  PyStr.startswith (ev_filename ev) "/" = false →
  topdir +:+ event_relpath topdir ev = PyStr.path_join (ev_path ev) (ev_filename ev).
Proof.
  intros Hroot Hin Hname. unfold event_relpath.
  pose proof Hin as Hcommon. rewrite <- commonprefix_startswith in Hcommon.
  apply String.eqb_eq in Hcommon. rewrite Hcommon.
  pose proof (startswith_split _ _ Hin) as Hsplit.
  set (rest := PyStr.drop (String.length topdir) (ev_path ev)) in *.
  rewrite Hsplit. unfold PyStr.path_join. rewrite Hname.
  assert (Hne : topdir ≠ EmptyString) by (intros ->; discriminate).
  assert (Hpath : String.eqb (topdir +:+ rest) EmptyString = false).
  { apply String.eqb_neq. destruct topdir; [congruence | discriminate]. }
  rewrite Hpath. simpl orb.
  destruct rest as [|c rest'] eqn:Hrest.
  - simpl. rewrite append_empty_r, Hroot. reflexivity.
  - rewrite endswith_slash_append by discriminate.
    change (String.eqb (String c rest') EmptyString) with false. simpl orb.
    destruct (PyStr.endswith (String c rest') "/"); rewrite ?append_assoc; reflexivity.
Qed.

Lemma X10_relpath_under_root_witness :
  let ev := {| ev_mask := IN_MOVED_TO; ev_type_names := ["IN_MOVED_TO"];
               ev_path := "/data/run1/pass"; ev_filename := "r7.fast5" |} in
  PyStr.endswith Ex.topdir "/" = true
  ∧ PyStr.startswith (ev_path ev) Ex.topdir = true
  ∧ PyStr.startswith (ev_filename ev) "/" = false
  ∧ event_relpath Ex.topdir ev = "run1/pass/r7.fast5"
  ∧ Ex.topdir +:+ event_relpath Ex.topdir ev
    = PyStr.path_join (ev_path ev) (ev_filename ev).
Proof.
  intros ev.
  exact (conj eq_refl (conj eq_refl (conj eq_refl (conj eq_refl
    (X10_relpath_under_root Ex.topdir ev eq_refl eq_refl eq_refl))))).
Defined.

(** ** Fatal errors and silent aborts *)

(** X11: [errx] always leaves the session stopped, and once the session
    is stopped a further [errx] does nothing at all: no message, no
    cancellation, no [loop.stop()].  Only the first fatal error is
    reported. *)
Theorem X11_errx_once (message message' : string) (st : State) :
  running (sess (errx message st)) = false
  ∧ errx message' (errx message st) = errx message st.
Proof.
  assert (Hstop : running (sess (errx message st)) = false).
  { unfold errx. destruct (running (sess st)) eqn:Hrun; [|exact Hrun].
    unfold stop. simpl. rewrite Hrun. reflexivity. }
  split; [exact Hstop|]. unfold errx at 1. now rewrite Hstop.
Qed.

(** X12: a batch whose worker call or writer call ends with a
    cancellation or a broken process pool is given up silently.  Nothing
    is printed or logged, the session keeps its [running] flag, no counter
    and no done file changes, [active_batches] goes down by one and the
    batch coroutine has returned. *)
Theorem X12_silent_abort (config : Config) (topdir : string) (forcedflush : Z)
    (st : State) (batchid : Z) (files : list string) (ph : BatchPhase) (ev : Event) :
  batch_lookup batchid (tasks st) = Some (files, ph) →
  (ph = PhComputing ∧ ∃ r, swallowed r = true ∧ ev = EvBatchComputed batchid r)
  ∨ (∃ w later nd r feed,
       ph = PhWriting w later nd ∧ swallowed r = true
       ∧ ev = EvBatchWritten batchid r feed) →
  let st' := step config topdir forcedflush st ev in
  st' = batch_swallow batchid st
  ∧ running (sess st') = running (sess st)
  ∧ err_output st' = err_output st
  ∧ log_errors st' = log_errors st
  ∧ loop_stop_calls st' = loop_stop_calls st
  ∧ reads_queued (sess st') = reads_queued (sess st)
  ∧ reads_found (sess st') = reads_found (sess st)
  ∧ reads_processed (sess st') = reads_processed (sess st)
  ∧ files_done (sess st') = files_done (sess st)
  ∧ active_batches (sess st') = active_batches (sess st) - 1
  ∧ batch_phase batchid st' = Some PhReturned.
Proof.
  intros Hl Hev st'.
  assert (Hst' : st' = batch_swallow batchid st).
  { unfold st'.
    destruct Hev as [[-> (r & Hr & ->)] | (w & later & nd & r & feed & -> & Hr & ->)];
      simpl; unfold run_process_batch_computed, run_process_batch_written;
      rewrite (batch_lookup_phase _ _ _ _ Hl);
      destruct r as [a| |exc]; try discriminate; try reflexivity;
      unfold batch_raised; simpl in Hr; now rewrite Hr. }
  rewrite Hst'. split; [reflexivity|].
  unfold batch_swallow. simpl. split_and!; try reflexivity.
  unfold batch_phase, batch_goto. simpl. apply batch_lookup_goto.
  rewrite Hl. eauto.
Qed.

Lemma X12_silent_abort_witness :
  let st := run_events Ex.config Ex.topdir Ex.forcedflush Ex.two_files_one_gone
              (run_start Ex.config) in
  let nd := [Ex.okay "a.fast5"; disappeared "gone.fast5"] in
  let ev := EvBatchWritten 0 Cancelled (Return tt) in
  batch_lookup 0 (tasks st)
    = Some (["a.fast5"; "gone.fast5"], PhWriting WFastq [WSeqSummary] nd)
  ∧ step Ex.config Ex.topdir Ex.forcedflush st ev = batch_swallow 0 st.
Proof.
  intros st nd ev.
  assert (Hl : batch_lookup 0 (tasks st)
               = Some (["a.fast5"; "gone.fast5"], PhWriting WFastq [WSeqSummary] nd))
    by (vm_compute; reflexivity).
  assert (Hev : (PhWriting WFastq [WSeqSummary] nd = PhComputing
                 ∧ ∃ r, swallowed r = true ∧ ev = EvBatchComputed 0 r)
                ∨ (∃ w later nd' (r : Awaited unit) feed,
                     PhWriting WFastq [WSeqSummary] nd = PhWriting w later nd'
                     ∧ swallowed r = true ∧ ev = EvBatchWritten 0 r feed)).
  { right. exists WFastq, [WSeqSummary], nd, Cancelled, (Return tt).
    repeat split. }
  exact (conj Hl
    (proj1 (X12_silent_abort Ex.config Ex.topdir Ex.forcedflush st 0 _ _ ev Hl Hev))).
Defined.

(** ** The end of [run] *)

(** X13: when [quiet] is off, [run] returns the summary callback exactly
    when the scan finished and [reads_found] equals [reads_processed].  In
    that case, and in no other, it creates the inventories selected by
    [dump_adapter_signals] and [dump_basecalls], in this order, and its
    last message is [==> Finished.]; otherwise the last message is
    [==> Terminated.] when the scan finished and nothing is printed when
    it did not. *)
Theorem X13_run_result (config : Config) (st : State) :
  cfg_quiet config = false →
  let complete :=
    scan_finished (sess st)
    && bool_decide (reads_found (sess st) = reads_processed (sess st)) in
  snd (run_finish config st) = (if complete then Some print_results else None)
  ∧ inventories (fst (run_finish config st))
    = inventories st
      ++ (if complete && cfg_dump_adapter_signals config
          then ["adapter-dumps/inventory.h5"] else [])
      ++ (if complete && cfg_dump_basecalls config
          then ["events/inventory.h5"] else [])
  ∧ (if scan_finished (sess st)
     then last (std_output (fst (run_finish config st)))
          = Some (if complete then "==> Finished." else "==> Terminated.")
     else std_output (fst (run_finish config st)) = std_output st)
  ∧ sess (fst (run_finish config st)) = sess st.
Proof.
  intros Hq complete. subst complete.
  unfold run_finish, finalize_results, show_message. rewrite Hq. simpl.
  destruct (scan_finished (sess st)); simpl;
    [|rewrite !app_nil_r; repeat split].
  case_bool_decide; simpl;
    destruct (cfg_dump_adapter_signals config), (cfg_dump_basecalls config);
    simpl; rewrite ?app_nil_r, <- ?app_assoc, ?last_snoc; repeat split.
  all: rewrite ?app_assoc; apply last_snoc.
Qed.

Lemma X13_run_result_witness :
  let st := run_events Ex.config Ex.topdir Ex.forcedflush Ex.scan_one
              (run_start Ex.config) in
  cfg_quiet Ex.config = false
  ∧ snd (run_finish Ex.config st) = Some print_results.
Proof.
  intros st.
  assert (Hq : cfg_quiet Ex.config = false) by reflexivity.
  pose proof (proj1 (X13_run_result Ex.config st Hq)) as Hres.
  assert (Hc : scan_finished (sess st)
               && bool_decide (reads_found (sess st) = reads_processed (sess st))
               = true) by (vm_compute; reflexivity).
  rewrite Hc in Hres. exact (conj Hq Hres).
Defined.

(** ** The status line in live mode *)

Lemma length_append (a b : string) :
  String.length (a +:+ b) = (String.length a + String.length b)%nat.
Proof.
  induction a as [|x a IH]; [reflexivity|].
  change (S (String.length (a +:+ b)) = S (String.length a + String.length b)).
  now rewrite IH.
Qed.

Lemma length_spaces (n : nat) : String.length (spaces n) = n.
Proof. induction n as [|n IH]; [reflexivity|]. simpl. now rewrite IH. Qed.

Lemma startswith_refl (s : string) : PyStr.startswith s s = true.
Proof. induction s as [|c s IH]; [reflexivity|]. simpl. now rewrite Ascii.eqb_refl. Qed.

(** X14: the status line never gets shorter: a line that would be shorter
    than the previous one is padded with spaces to the previous width, so
    that it overwrites it.  What is written starts with the message for
    the current counters, the animation moves one step per written line
    only, and right after a line was written, a heartbeat without any
    batch in flight and without a change of the counters writes
    nothing. *)
Theorem X14_status_line (s : Session) (v : LiveView) :
  let out := live_status s v in
  (prev_message_width v ≤ prev_message_width out.2)%nat
  ∧ (∀ msg, out.1 = Some msg →
       String.length msg = prev_message_width out.2
       ∧ String.length msg
         = (String.length (status_message (glider (glider_position v)) s)
            `max` prev_message_width v)%nat
       ∧ PyStr.startswith msg (status_message (glider (glider_position v)) s) = true
       ∧ glider_position out.2 = S (glider_position v))
  ∧ (out.1 = None → out.2 = v)
  ∧ (active_batches s ≤ 0 → (live_status s out.2).1 = None).
Proof.
  cbv zeta.
  assert (Hagain : ∀ w g,
    active_batches s ≤ 0 →
    (live_status s {| prev_processed := reads_processed s;
                      prev_queued := reads_queued s;
                      prev_found := reads_found s;
                      prev_message_width := w; glider_position := g |}).1 = None).
  { intros w g Hidle. unfold live_status.
    cbn [prev_processed prev_queued prev_found].
    rewrite !Z.eqb_refl. apply Z.ltb_ge in Hidle as ->. reflexivity. }
  pose proof (eq_refl (live_status s v)) as Hout.
  unfold live_status at 2 in Hout.
  destruct (live_status s v) as [o v'].
  set (raw := status_message (glider (glider_position v)) s) in *.
  cbn [fst snd].
  destruct (_ || (0 <? active_batches s)) eqn:Hshow.
  - destruct (String.length raw <? prev_message_width v)%nat eqn:Hshort;
      apply pair_equal_spec in Hout as [-> ->];
      cbn [prev_message_width glider_position].
    + apply Nat.ltb_lt in Hshort.
      assert (Hlen : String.length
                       (raw +:+ spaces (prev_message_width v - String.length raw))
                     = prev_message_width v)
        by (rewrite length_append, length_spaces; lia).
      rewrite Hlen. split; [lia|]. split.
      * intros msg Hmsg. apply (inj Some) in Hmsg. rewrite <- Hmsg, Hlen.
        split; [reflexivity|]. split; [lia|]. split; [apply startswith_append|].
        reflexivity.
      * split; [discriminate|]. apply Hagain.
    + apply Nat.ltb_ge in Hshort. split; [lia|]. split.
      * intros msg Hmsg. apply (inj Some) in Hmsg. rewrite <- Hmsg.
        split; [reflexivity|]. split; [lia|].
        split; [apply startswith_refl | reflexivity].
      * split; [discriminate|]. apply Hagain.
  - apply pair_equal_spec in Hout as [-> ->].
    split; [lia|]. split; [discriminate|]. split; [reflexivity|].
    intros _. unfold live_status. now rewrite Hshow.
Qed.

Example status_line_padded :
  let s := set_reads_found 7 (set_reads_processed 5 (set_reads_queued 2 new_session)) in
  let v := {| prev_processed := 4; prev_queued := 3; prev_found := 7;
              prev_message_width := 50; glider_position := 5 |} in
  (live_status s v).1
  = Some (String (ascii_of_nat 13)
            "LIVE [-] 5 processed, 2 queued (7 total reads)   ")
  ∧ (live_status s live_view_start).1
    = Some (String (ascii_of_nat 13) "LIVE [/] 5 processed, 2 queued (7 total reads)").
Proof. vm_compute. split; reflexivity. Qed.

(** ** The configuration [main] hands to the pipeline *)

Lemma enabled_writers_last (config : Config) :
  last (enabled_writers config) = Some WSeqSummary.
Proof. unfold enabled_writers. rewrite !app_assoc. apply last_snoc. Qed.

(** X15: the configuration built from the command line.  An empty
    [--align] value is stored as no index at all; outside live mode the
    start delay is 0, so a batch starts computing as soon as its coroutine
    runs; unless [--align] was given an empty value, the reads are written
    as FASTQ or aligned; and the sequencing summary is always the last
    writer. *)
Theorem X15_main_config (args : Args) :
  let config := main_config args in
  cfg_minimap2_index config ≠ Some EmptyString
  ∧ (truthy (cfg_minimap2_index config) = true ↔ cfg_minimap2_index config ≠ None)
  ∧ (args_live args = false →
     cfg_analysis_start_delay config = 0
     ∧ ∀ st batchid files,
         batch_lookup batchid (tasks st) = Some (files, PhCreated) →
         run_process_batch_begin config batchid st
         = batch_goto batchid PhComputing
             (upd_sess (λ s, set_active_batches (active_batches s + 1) s) st))
  ∧ (args_align args ≠ Some EmptyString →
     WFastq ∈ enabled_writers config ∨ WAlignment ∈ enabled_writers config)
  ∧ last (enabled_writers config) = Some WSeqSummary.
Proof.
  cbv zeta. split; [|split; [|split; [|split]]].
  - unfold main_config. simpl. destruct (args_align args) as [index|]; simpl;
      [|discriminate].
    destruct (String.eqb index EmptyString) eqn:Heq; simpl; [discriminate|].
    apply String.eqb_neq in Heq. congruence.
  - unfold main_config. simpl. destruct (args_align args) as [index|]; simpl;
      [|split; [discriminate | congruence]].
    destruct (String.eqb index EmptyString) eqn:Heq; simpl.
    + split; [discriminate | congruence].
    + rewrite Heq. simpl. split; [discriminate | reflexivity].
  - intros Hlive. split; [unfold main_config; simpl; now rewrite Hlive|].
    intros st batchid files Hl. unfold run_process_batch_begin.
    rewrite (batch_lookup_phase _ _ _ _ Hl). unfold main_config. simpl.
    now rewrite Hlive.
  - intros Halign. unfold enabled_writers, main_config. simpl.
    destruct (args_align args) as [index|] eqn:Ha; simpl.
    + right. destruct (String.eqb index EmptyString) eqn:Heq.
      * apply String.eqb_eq in Heq. congruence.
      * simpl. rewrite Heq.
        destruct (args_fastq args), (args_fast5 args || args_symlink_fast5 args);
          simpl;
          repeat first [ apply list_elem_of_here | apply list_elem_of_further ].
    + left. apply list_elem_of_here.
  - apply enabled_writers_last.
Qed.

(** ** Output directories *)

Lemma finalize_inventories (config : Config) (st : State) :
  inventories (finalize_results config st)
  = inventories st
    ++ (if cfg_dump_adapter_signals config then ["adapter-dumps/inventory.h5"] else [])
    ++ (if cfg_dump_basecalls config then ["events/inventory.h5"] else []).
Proof.
  unfold finalize_results, show_message.
  destruct (cfg_dump_adapter_signals config), (cfg_dump_basecalls config),
    (cfg_quiet config); simpl; rewrite ?app_nil_r, <- ?app_assoc; reflexivity.
Qed.

Lemma output_subdir_listed (config : Config) (condition : Config → bool)
    (subdir : string) :
  (condition, subdir) ∈ conditional_subdirs →
  condition config = true →
  subdir ∈ output_subdirs config.
Proof.
  intros Hin Hc. unfold output_subdirs. apply list_elem_of_omap.
  exists (condition, subdir). simpl. now rewrite Hc.
Qed.

(** X16: the directories [create_output_directories] prepares are the
    ones the pipeline writes to under the same configuration: every
    inventory that [finalize_results] creates lies in one of them, and the
    [bam] directory is prepared exactly when the alignment writer is among
    the enabled writers.  No directory is listed twice. *)
Theorem X16_output_directories (config : Config) (st : State) :
  (∀ path, path ∈ inventories (finalize_results config st) →
     path ∈ inventories st
     ∨ ∃ subdir, subdir ∈ output_subdirs config
                 ∧ path = subdir +:+ "/inventory.h5")
  ∧ ("bam" ∈ output_subdirs config ↔ WAlignment ∈ enabled_writers config)
  ∧ NoDup (output_subdirs config).
Proof.
  split; [|split].
  - intros path. rewrite finalize_inventories, !elem_of_app.
    intros [Hold | [Hnew | Hnew]]; [now left | right ..].
    + destruct (cfg_dump_adapter_signals config) eqn:Hc; [|inversion Hnew].
      apply list_elem_of_singleton in Hnew as ->. exists "adapter-dumps".
      split; [|reflexivity].
      apply (output_subdir_listed config cfg_dump_adapter_signals); [|exact Hc].
      unfold conditional_subdirs.
      repeat first [ apply list_elem_of_here | apply list_elem_of_further ].
    + destruct (cfg_dump_basecalls config) eqn:Hc; [|inversion Hnew].
      apply list_elem_of_singleton in Hnew as ->. exists "events".
      split; [|reflexivity].
      apply (output_subdir_listed config cfg_dump_basecalls); [|exact Hc].
      unfold conditional_subdirs.
      repeat first [ apply list_elem_of_here | apply list_elem_of_further ].
  - unfold output_subdirs, conditional_subdirs, enabled_writers. simpl.
    destruct (cfg_fastq_output config), (cfg_fast5_output config),
      (truthy (cfg_minimap2_index config)), (cfg_dump_adapter_signals config),
      (cfg_dump_basecalls config); simpl;
      split; intros Hin;
      repeat first
        [ apply list_elem_of_here
        | apply list_elem_of_further
        | match type of Hin with
          | _ ∈ [] => inversion Hin
          | _ ∈ _ :: _ =>
              apply elem_of_cons in Hin; destruct Hin as [Hin | Hin]; try discriminate
          end ].
  - unfold output_subdirs, conditional_subdirs. simpl.
    destruct (cfg_fastq_output config), (cfg_fast5_output config),
      (truthy (cfg_minimap2_index config)), (cfg_dump_adapter_signals config),
      (cfg_dump_basecalls config); simpl;
      repeat (constructor;
              [rewrite ?elem_of_cons, ?elem_of_nil; intuition discriminate|]);
      constructor.
Qed.

(** ** Output names *)

Section OutputNamesFacts.
Variables OUTPUT_NAME_FAILED OUTPUT_NAME_PASSED OUTPUT_NAME_ARTIFACT : string.
Variable OUTPUT_NAME_BARCODES : Z → string.

Lemma barcode_names_lookup (indices : list Z) (names : gmap (string + Z) string) :
  (∀ key : string + Z,
     foldl (λ acc i, <[inr i := OUTPUT_NAME_BARCODES (i + 1)]> acc) names indices !! key
     = match key with
       | inr i => if bool_decide (i ∈ indices)
                  then Some (OUTPUT_NAME_BARCODES (i + 1)) else names !! key
       | inl _ => names !! key
       end).
Proof.
  revert names. induction indices as [|j indices IH]; intros names key.
  - destruct key; [reflexivity|]. cbn [foldl].
    rewrite bool_decide_eq_false_2; [reflexivity|]. apply not_elem_of_nil.
  - cbn [foldl]. rewrite IH. destruct key as [k|i].
    + now rewrite lookup_insert_ne.
    + destruct (decide (i ∈ indices)) as [Hin | Hout].
      * rewrite !bool_decide_eq_true_2; [reflexivity | now right | exact Hin].
      * rewrite (bool_decide_eq_false_2 _ Hout).
        destruct (decide (i = j)) as [-> | Hne].
        -- rewrite lookup_insert_eq, bool_decide_eq_true_2; [reflexivity | now left].
        -- rewrite lookup_insert_ne by congruence.
           rewrite bool_decide_eq_false_2; [reflexivity|].
           intros Hin. apply elem_of_cons in Hin as [? | ?]; contradiction.
Qed.

(** X17: in the output name mapping, [fail] and [pass] are always there,
    the integer key [i] is there exactly when barcoding is on and
    [0 <= i < number_of_barcodes] and then names barcode [i + 1],
    [artifact] is there exactly when unsplit reads are filtered, and there
    is no other key. *)
Theorem X17_output_names (barcoding : bool) (number_of_barcodes : Z)
    (filter_unsplit_reads : bool) (key : string + Z) :
  setup_output_name_mapping OUTPUT_NAME_FAILED OUTPUT_NAME_PASSED
      OUTPUT_NAME_ARTIFACT OUTPUT_NAME_BARCODES
      barcoding number_of_barcodes filter_unsplit_reads !! key
  = match key with
    | inr i =>
        if barcoding && (0 <=? i) && (i <? number_of_barcodes)
        then Some (OUTPUT_NAME_BARCODES (i + 1)) else None
    | inl name =>
        if String.eqb name "fail" then Some OUTPUT_NAME_FAILED
        else if String.eqb name "pass" then Some OUTPUT_NAME_PASSED
        else if String.eqb name "artifact" && filter_unsplit_reads
             then Some OUTPUT_NAME_ARTIFACT
        else None
    end.
Proof.
  unfold setup_output_name_mapping.
  set (base := <[inl "pass" := OUTPUT_NAME_PASSED]>
                 (<[inl "fail" := OUTPUT_NAME_FAILED]> (∅ : gmap (string + Z) string))).
  assert (Hbase : ∀ k : string + Z,
    base !! k = match k with
                | inl name =>
                    if String.eqb name "fail" then Some OUTPUT_NAME_FAILED
                    else if String.eqb name "pass" then Some OUTPUT_NAME_PASSED
                    else None
                | inr _ => None
                end).
  { intros [name|i]; unfold base.
    - destruct (String.eqb name "fail") eqn:Hf.
      + apply String.eqb_eq in Hf as ->.
        rewrite lookup_insert_ne by discriminate. apply lookup_insert_eq.
      + apply String.eqb_neq in Hf.
        destruct (String.eqb name "pass") eqn:Hp.
        * apply String.eqb_eq in Hp as ->. apply lookup_insert_eq.
        * apply String.eqb_neq in Hp.
          rewrite !lookup_insert_ne by congruence. apply lookup_empty.
    - rewrite !lookup_insert_ne by discriminate. apply lookup_empty. }
  set (named := if barcoding then foldl _ base _ else base).
  assert (Hnamed : ∀ k : string + Z,
    named !! k = match k with
                 | inl _ => base !! k
                 | inr i => if barcoding && (0 <=? i) && (i <? number_of_barcodes)
                            then Some (OUTPUT_NAME_BARCODES (i + 1)) else None
                 end).
  { intros k. unfold named. destruct barcoding; simpl.
    - rewrite barcode_names_lookup. destruct k as [name|i]; [reflexivity|].
      rewrite Hbase.
      destruct (decide (0 ≤ i < number_of_barcodes)) as [Hin | Hout].
      + rewrite bool_decide_eq_true_2 by (apply elem_of_seqZ; lia).
        destruct Hin as [H0 Hn]. apply Z.leb_le in H0 as ->.
        apply Z.ltb_lt in Hn as ->. reflexivity.
      + rewrite bool_decide_eq_false_2 by (rewrite elem_of_seqZ; lia).
        destruct (0 <=? i) eqn:H0; [|reflexivity].
        destruct (i <? number_of_barcodes) eqn:Hn; [|reflexivity].
        apply Z.leb_le in H0. apply Z.ltb_lt in Hn. lia.
    - destruct k as [name|i]; [reflexivity | exact (Hbase (inr i))]. }
  destruct filter_unsplit_reads.
  - destruct key as [name|i].
    + destruct (String.eqb name "artifact") eqn:Ha.
      * apply String.eqb_eq in Ha as ->. rewrite lookup_insert_eq. reflexivity.
      * apply String.eqb_neq in Ha. rewrite lookup_insert_ne by congruence.
        rewrite Hnamed, Hbase. simpl. reflexivity.
    + rewrite lookup_insert_ne by discriminate. exact (Hnamed (inr i)).
  - rewrite Hnamed. destruct key as [name|i]; [|reflexivity].
    rewrite Hbase, andb_false_r. reflexivity.
Qed.

End OutputNamesFacts.
